(** * Lesson catalogue, access snapshot and notifications: a shallow embedding

    The development follows two React components,
    [src/components/user/LessonsPage.tsx] and
    [src/components/user/pages/NotificationsPage.tsx].  Component state
    ([useState] cells) is a record that every handler takes and returns;
    what a handler does to the outside world (backend queries, console
    errors, toasts) is appended to a trace kept in the same record.  The
    backend is an argument: a record holding the answer of each table. *)

From Stdlib Require Import ZArith.
From stdpp Require Import gmap strings list fin_maps sorting.

Local Open Scope string_scope.
Local Open Scope list_scope.

(** ** JavaScript values *)

Module Js.

(** [!!s] for a string: only the empty string is falsy. *)
Definition truthy (s : string) : bool := negb (String.eqb s "").

(** [x || d] where [x] is a string that may be [undefined]/[null]. *)
Definition or_string (x : option string) (d : string) : string :=
  match x with
  | Some s => if truthy s then s else d
  | None => d
  end.

(** [x || d] where [x] is an integral number that may be
    [undefined]/[null]: zero is falsy as well. *)
Definition or_number (x : option Z) (d : Z) : Z :=
  match x with
  | Some n => if (n =? 0)%Z then d else n
  | None => d
  end.

(** [Array.prototype.sort(cmp)]: the specification requires a stable
    sort; for a consistent comparator the result is the unique stable
    ordering, computed here by insertion from the right.  An element is
    placed in front of the first later element that does not compare
    strictly smaller, so equal elements keep their order. *)
Fixpoint sort_insert {A} (cmp : A → A → Z) (x : A) (l : list A) : list A :=
  match l with
  | [] => [x]
  | y :: l' =>
      if (cmp x y <=? 0)%Z then x :: y :: l' else y :: sort_insert cmp x l'
  end.

Definition sort {A} (cmp : A → A → Z) (l : list A) : list A :=
  foldr (sort_insert cmp) [] l.

(** The comparator [(a, b) => key(a) - key(b)]. *)
Definition by_key {A} (key : A → Z) (a b : A) : Z := (key a - key b)%Z.

(** [new Map(pairs)]: entries are set from left to right, a later pair
    for the same key replaces the earlier one. *)
Definition new_Map (pairs : list (string * string)) : gmap string string :=
  foldl (λ m kv, <[kv.1 := kv.2]> m) ∅ pairs.

(** [new Set(items)]. *)
Definition new_Set (items : list string) : gset string := list_to_set items.

(** What awaiting a backend call gives: the promise resolves to
    [{ data, error }] or it rejects and the [await] throws. *)
Inductive Response (A : Type) : Type :=
| Resolved (data : option A) (error : option string)
| Rejected (reason : string).
Arguments Resolved {A} data error.
Arguments Rejected {A} reason.

End Js.

(** ** Rows as the data store returns them *)

Module SubjectRow.
Record t := mk {
  id : string; name : string; description : string; icon : string;
  color : string; image_url : option string }.
End SubjectRow.

Module LessonRow.
Record t := mk {
  id : string; title : string; description : string;
  subject_id : string; thumbnail_url : option string }.
End LessonRow.

Module VideoRow.
Record t := mk {
  id : string; title : string; description : string;
  youtube_url : string; thumbnail_url : string; duration : string;
  lesson_id : string; created_at : string; position : option Z }.
End VideoRow.

Module AccessRow.
Record t := mk { lesson_id : string }.
End AccessRow.

Module RequestRow.
Record t := mk { lesson_id : string; status : string }.
End RequestRow.

(** The row [submitLessonRequest] inserts into [lesson_requests]. *)
Module RequestInsert.
Record t := mk {
  user_id : string; lesson_id : string; subject_id : string;
  message : option string; status : string }.
End RequestInsert.

(** ** The view model *)

Module LessonVideo.
Record t := mk {
  id : string; title : string; description : string;
  youtube_url : string; thumbnail_url : string; duration : string;
  lessonId : string; subjectId : string; created_at : string;
  position : Z }.
End LessonVideo.

Module Lesson.
Record t := mk {
  id : string; title : string; description : string;
  subjectId : string; thumbnailUrl : option string;
  videoCount : nat; videos : list LessonVideo.t;
  hasAccess : bool; requestStatus : string }.
End Lesson.

Module Subject.
Record t := mk {
  id : string; name : string; description : string; icon : string;
  color : string; imageUrl : option string;
  lessonCount : nat; lessons : list Lesson.t }.
End Subject.

(** ** The catalogue assembler (the body of [loadSubjects]) *)

Definition getDefaultSubjects : list Subject.t :=
  [ Subject.mk "sft" "SFT"
      "Science for Technology - Core scientific principles"
      "🔬" "from-green-500 to-emerald-600"
      (Some "https://images.pexels.com/photos/2280571/pexels-photo-2280571.jpeg")
      0 [];
    Subject.mk "et" "ET"
      "Engineering Technology - Applied engineering concepts"
      "⚙️" "from-orange-500 to-amber-600"
      (Some "https://images.pexels.com/photos/159298/gears-cogs-machine-machinery-159298.jpeg")
      0 [];
    Subject.mk "ict" "ICT"
      "Information & Communication Technology"
      "💻" "from-blue-500 to-indigo-600"
      (Some "https://images.pexels.com/photos/546819/pexels-photo-546819.jpeg")
      0 [] ].

(** [(subjectsData || getDefaultSubjects()).map(subject => ...)] reads a
    default subject through the row's field names: [id], [name],
    [description], [icon] and [color] are there, [image_url] is not (the
    view model calls it [imageUrl]) and reads as [undefined]. *)
Definition read_as_row (s : Subject.t) : SubjectRow.t :=
  SubjectRow.mk (Subject.id s) (Subject.name s) (Subject.description s)
    (Subject.icon s) (Subject.color s) None.

Definition video_cmp (a b : LessonVideo.t) : Z :=
  (Js.or_number (Some (LessonVideo.position a)) 0
   - Js.or_number (Some (LessonVideo.position b)) 0)%Z.

Definition assemble_video (subject_id lesson_id : string)
    (index : nat) (video : VideoRow.t) : LessonVideo.t :=
  {| LessonVideo.id := VideoRow.id video;
     LessonVideo.title := VideoRow.title video;
     LessonVideo.description := VideoRow.description video;
     LessonVideo.youtube_url := VideoRow.youtube_url video;
     LessonVideo.thumbnail_url := VideoRow.thumbnail_url video;
     LessonVideo.duration := VideoRow.duration video;
     LessonVideo.lessonId := lesson_id;
     LessonVideo.subjectId := subject_id;
     LessonVideo.created_at := VideoRow.created_at video;
     LessonVideo.position :=
       Js.or_number (VideoRow.position video) (Z.of_nat index) |}.

(** [lessonVideos]: filter by owning lesson, then map with the index in
    the filtered array. *)
Definition lessonVideos (subject_id lesson_id : string)
    (videosData : option (list VideoRow.t)) : list LessonVideo.t :=
  imap (assemble_video subject_id lesson_id)
    (filter (λ video, VideoRow.lesson_id video = lesson_id)
       (default [] videosData)).

Definition assemble_lesson (userAccess : gset string)
    (userRequests : gmap string string)
    (videosData : option (list VideoRow.t))
    (subject_id : string) (lesson : LessonRow.t) : Lesson.t :=
  let vs := lessonVideos subject_id (LessonRow.id lesson) videosData in
  {| Lesson.id := LessonRow.id lesson;
     Lesson.title := LessonRow.title lesson;
     Lesson.description := LessonRow.description lesson;
     Lesson.subjectId := subject_id;
     Lesson.thumbnailUrl := LessonRow.thumbnail_url lesson;
     Lesson.videoCount := length vs;
     Lesson.videos := Js.sort video_cmp vs;
     Lesson.hasAccess := bool_decide (LessonRow.id lesson ∈ userAccess);
     Lesson.requestStatus :=
       Js.or_string (userRequests !! LessonRow.id lesson) "none" |}.

Definition assemble_subject (userAccess : gset string)
    (userRequests : gmap string string)
    (lessonsData : option (list LessonRow.t))
    (videosData : option (list VideoRow.t))
    (subject : SubjectRow.t) : Subject.t :=
  let subjectLessons :=
    assemble_lesson userAccess userRequests videosData (SubjectRow.id subject)
      <$> filter (λ lesson, LessonRow.subject_id lesson = SubjectRow.id subject)
            (default [] lessonsData) in
  {| Subject.id := SubjectRow.id subject;
     Subject.name := SubjectRow.name subject;
     Subject.description := SubjectRow.description subject;
     Subject.icon := SubjectRow.icon subject;
     Subject.color := SubjectRow.color subject;
     Subject.imageUrl := SubjectRow.image_url subject;
     Subject.lessonCount := length subjectLessons;
     Subject.lessons := subjectLessons |}.

Definition organizedSubjects (userAccess : gset string)
    (userRequests : gmap string string)
    (subjectsData : option (list SubjectRow.t))
    (lessonsData : option (list LessonRow.t))
    (videosData : option (list VideoRow.t)) : list Subject.t :=
  assemble_subject userAccess userRequests lessonsData videosData
    <$> default (read_as_row <$> getDefaultSubjects) subjectsData.

(** ** The lessons page: state, effects on the outside world, backend *)

(** What a handler does to the outside world, in the order it happens.
    [console.log] lines are debugging output and are left out. *)
Inductive Effect : Type :=
| Select (table : string)
| InsertInto (table : string) (row : RequestInsert.t)
| ConsoleError (msg : string)
| ToastError (msg : string)
| ToastSuccess (msg : string).

(** Does the effect query the given table? *)
Definition is_select (table : string) (e : Effect) : bool :=
  match e with
  | Select t => String.eqb t table
  | _ => false
  end.

(** How many times a trace queries a table. *)
Definition fetches (table : string) (tr : list Effect) : nat :=
  length (filter (λ e, is_select table e = true) tr).

(** The answers of the data store.  The two per-user tables are queried
    with [.eq('user_id', user.id)]. *)
Module Backend.
Record t := mk {
  user_lesson_access : string → Js.Response (list AccessRow.t);
  lesson_requests : string → Js.Response (list RequestRow.t);
  subjects : Js.Response (list SubjectRow.t);
  subject_lessons : Js.Response (list LessonRow.t);
  lesson_videos : Js.Response (list VideoRow.t);
  insert_lesson_requests : RequestInsert.t → Js.Response unit }.
End Backend.

(** Which of the two views is drawn: ['subjects' | 'lessons']. *)
Inductive View : Type := ViewSubjects | ViewLessons.

(** The [useState] cells of [LessonsPage], and the trace. *)
Module Page.
Record t := mk {
  selectedSubject : option Subject.t;
  selectedLesson : option Lesson.t;
  currentView : View;
  subjects : list Subject.t;
  userAccess : gset string;
  userRequests : gmap string string;
  loading : bool;
  loadingContainers : gset string;
  showRequestModal : bool;
  requestingLesson : option Lesson.t;
  trace : list Effect }.

(** The state of a freshly mounted component. *)
Definition initial : t :=
  mk None None ViewSubjects [] ∅ ∅ true ∅ false None [].
End Page.

Definition setSelectedSubject (v : option Subject.t) (p : Page.t) : Page.t :=
  Page.mk v (Page.selectedLesson p) (Page.currentView p) (Page.subjects p)
    (Page.userAccess p) (Page.userRequests p) (Page.loading p)
    (Page.loadingContainers p) (Page.showRequestModal p)
    (Page.requestingLesson p) (Page.trace p).

Definition setCurrentView (v : View) (p : Page.t) : Page.t :=
  Page.mk (Page.selectedSubject p) (Page.selectedLesson p) v
    (Page.subjects p) (Page.userAccess p) (Page.userRequests p)
    (Page.loading p) (Page.loadingContainers p) (Page.showRequestModal p)
    (Page.requestingLesson p) (Page.trace p).

Definition setSubjects (v : list Subject.t) (p : Page.t) : Page.t :=
  Page.mk (Page.selectedSubject p) (Page.selectedLesson p)
    (Page.currentView p) v (Page.userAccess p) (Page.userRequests p)
    (Page.loading p) (Page.loadingContainers p) (Page.showRequestModal p)
    (Page.requestingLesson p) (Page.trace p).

Definition setUserAccess (v : gset string) (p : Page.t) : Page.t :=
  Page.mk (Page.selectedSubject p) (Page.selectedLesson p)
    (Page.currentView p) (Page.subjects p) v (Page.userRequests p)
    (Page.loading p) (Page.loadingContainers p) (Page.showRequestModal p)
    (Page.requestingLesson p) (Page.trace p).

Definition setUserRequests (v : gmap string string) (p : Page.t) : Page.t :=
  Page.mk (Page.selectedSubject p) (Page.selectedLesson p)
    (Page.currentView p) (Page.subjects p) (Page.userAccess p) v
    (Page.loading p) (Page.loadingContainers p) (Page.showRequestModal p)
    (Page.requestingLesson p) (Page.trace p).

Definition setLoading (v : bool) (p : Page.t) : Page.t :=
  Page.mk (Page.selectedSubject p) (Page.selectedLesson p)
    (Page.currentView p) (Page.subjects p) (Page.userAccess p)
    (Page.userRequests p) v (Page.loadingContainers p)
    (Page.showRequestModal p) (Page.requestingLesson p) (Page.trace p).

Definition setLoadingContainers (v : gset string) (p : Page.t) : Page.t :=
  Page.mk (Page.selectedSubject p) (Page.selectedLesson p)
    (Page.currentView p) (Page.subjects p) (Page.userAccess p)
    (Page.userRequests p) (Page.loading p) v (Page.showRequestModal p)
    (Page.requestingLesson p) (Page.trace p).

Definition setShowRequestModal (v : bool) (p : Page.t) : Page.t :=
  Page.mk (Page.selectedSubject p) (Page.selectedLesson p)
    (Page.currentView p) (Page.subjects p) (Page.userAccess p)
    (Page.userRequests p) (Page.loading p) (Page.loadingContainers p) v
    (Page.requestingLesson p) (Page.trace p).

Definition setRequestingLesson (v : option Lesson.t) (p : Page.t) : Page.t :=
  Page.mk (Page.selectedSubject p) (Page.selectedLesson p)
    (Page.currentView p) (Page.subjects p) (Page.userAccess p)
    (Page.userRequests p) (Page.loading p) (Page.loadingContainers p)
    (Page.showRequestModal p) v (Page.trace p).

Definition emit (e : Effect) (p : Page.t) : Page.t :=
  Page.mk (Page.selectedSubject p) (Page.selectedLesson p)
    (Page.currentView p) (Page.subjects p) (Page.userAccess p)
    (Page.userRequests p) (Page.loading p) (Page.loadingContainers p)
    (Page.showRequestModal p) (Page.requestingLesson p)
    (Page.trace p ++ [e]).

(** [user?.id] used as a condition: the signed-in user's identifier when
    there is a user and the identifier is not the empty string. *)
Definition user_id (user : option string) : option string :=
  match user with
  | Some i => if Js.truthy i then Some i else None
  | None => None
  end.

(** *** The access snapshot store *)

Definition loadUserAccess (user : option string) (b : Backend.t)
    (p : Page.t) : Page.t :=
  match user_id user with
  | None => p
  | Some uid =>
      let p := emit (Select "user_lesson_access") p in
      match Backend.user_lesson_access b uid with
      | Js.Resolved accessData (Some _) =>
          emit (ConsoleError "LessonsPage - Error loading user access:") p
      | Js.Resolved accessData None =>
          setUserAccess
            (Js.new_Set (AccessRow.lesson_id <$> default [] accessData)) p
      | Js.Rejected _ =>
          setUserAccess ∅ (emit (ConsoleError "Error loading user access:") p)
      end
  end.

Definition loadUserRequests (user : option string) (b : Backend.t)
    (p : Page.t) : Page.t :=
  match user_id user with
  | None => p
  | Some uid =>
      let p := emit (Select "lesson_requests") p in
      match Backend.lesson_requests b uid with
      | Js.Resolved requestsData (Some _) =>
          emit (ConsoleError "LessonsPage - Error loading user requests:") p
      | Js.Resolved requestsData None =>
          setUserRequests
            (Js.new_Map
               ((λ item, (RequestRow.lesson_id item, RequestRow.status item))
                  <$> default [] requestsData)) p
      | Js.Rejected _ =>
          setUserRequests ∅
            (emit (ConsoleError "Error loading user requests:") p)
      end
  end.

(** *** [loadSubjects]

    [userAccess] and [userRequests] are the values the callback closed
    over when it was created, which is why they are arguments and not
    read from the page. *)

(** The [catch] block followed by [finally]. *)
Definition loadSubjects_catch (p : Page.t) : Page.t :=
  setLoading false
    (setSubjects getDefaultSubjects
       (setSubjects getDefaultSubjects
          (emit (ConsoleError "Error loading data:") p))).

Definition log_if_error (msg : string) (error : option string)
    (p : Page.t) : Page.t :=
  match error with
  | Some _ => emit (ConsoleError msg) p
  | None => p
  end.

Definition loadSubjects (user : option string)
    (userAccess : gset string) (userRequests : gmap string string)
    (b : Backend.t) (p : Page.t) : Page.t :=
  match user_id user with
  | None => p
  | Some _ =>
      let p := emit (Select "subjects") (setLoading true p) in
      match Backend.subjects b with
      | Js.Rejected _ => loadSubjects_catch p
      | Js.Resolved subjectsData (Some _) =>
          (* [return] inside [try]: the [finally] block still runs *)
          setLoading false
            (setLoading false
               (setLoading false (setSubjects getDefaultSubjects p)))
      | Js.Resolved subjectsData None =>
          let p := emit (Select "subject_lessons") p in
          match Backend.subject_lessons b with
          | Js.Rejected _ => loadSubjects_catch p
          | Js.Resolved lessonsData lessonsError =>
              let p :=
                log_if_error "LessonsPage - Error loading lessons:"
                  lessonsError p in
              let p := emit (Select "lesson_videos") p in
              match Backend.lesson_videos b with
              | Js.Rejected _ => loadSubjects_catch p
              | Js.Resolved videosData videosError =>
                  let p :=
                    log_if_error "LessonsPage - Error loading videos:"
                      videosError p in
                  setLoading false
                    (setSubjects
                       (organizedSubjects userAccess userRequests
                          subjectsData lessonsData videosData) p)
              end
          end
      end
  end.

(** *** Calls of [loadSubjects] that overlap

    The effects below call [loadSubjects] without awaiting it, so a call
    of an earlier render can still be waiting for its answers when a
    later one starts, and nothing orders their results.  A call changes
    the state at two moments: at once ([setLoading(true)], and the
    subject query is sent), and when its last answer has arrived (the
    writes of [setSubjects] and [setLoading(false)], in one go).  Between
    the two it only sends queries; the trace lists them at the second
    moment. *)

(** A call that has started and has not yet written its result: the
    [userAccess] and [userRequests] it closed over. *)
Module InFlight.
Record t := mk {
  userAccess : gset string;
  userRequests : gmap string string }.
End InFlight.

Definition loadSubjects_begin (user : option string) (p : Page.t) : Page.t :=
  match user_id user with
  | None => p
  | Some _ => emit (Select "subjects") (setLoading true p)
  end.

Definition loadSubjects_land (c : InFlight.t) (b : Backend.t) (p : Page.t)
    : Page.t :=
  match Backend.subjects b with
  | Js.Rejected _ => loadSubjects_catch p
  | Js.Resolved subjectsData (Some _) =>
      setLoading false
        (setLoading false
           (setLoading false (setSubjects getDefaultSubjects p)))
  | Js.Resolved subjectsData None =>
      let p := emit (Select "subject_lessons") p in
      match Backend.subject_lessons b with
      | Js.Rejected _ => loadSubjects_catch p
      | Js.Resolved lessonsData lessonsError =>
          let p :=
            log_if_error "LessonsPage - Error loading lessons:"
              lessonsError p in
          let p := emit (Select "lesson_videos") p in
          match Backend.lesson_videos b with
          | Js.Rejected _ => loadSubjects_catch p
          | Js.Resolved videosData videosError =>
              let p :=
                log_if_error "LessonsPage - Error loading videos:"
                  videosError p in
              setLoading false
                (setSubjects
                   (organizedSubjects (InFlight.userAccess c)
                      (InFlight.userRequests c) subjectsData lessonsData
                      videosData) p)
          end
      end
  end.

(** *** The refresh triggers *)

(** The "initial data load" effect, run when the user identifier becomes
    available.  The two calls are issued one after the other; each is
    taken to run to completion. *)
Definition initialDataLoad (user : option string) (b : Backend.t)
    (p : Page.t) : Page.t :=
  match user_id user with
  | None => p
  | Some _ => loadUserRequests user b (loadUserRequests user b p)
  end.

(** The two effects that depend on [userAccess] and [userRequests]
    ("load subjects after access data is loaded" and "separate effect for
    when access data changes"): after a render in which either changed,
    each calls the [loadSubjects] of that render and does not await it.
    The result is the page once both calls have started, with the two
    calls now in flight.  The second effect's extra condition,
    [userAccess.size > 0 || userRequests.size >= 0], always holds. *)
Definition accessDataChanged (user : option string) (p : Page.t)
    : Page.t * list InFlight.t :=
  match user_id user with
  | None => (p, [])
  | Some _ =>
      let c := InFlight.mk (Page.userAccess p) (Page.userRequests p) in
      (loadSubjects_begin user (loadSubjects_begin user p), [c; c])
  end.

(** The body shared by the timer of [handleLessonAccessUpdate], by
    [handleVisibilityChange] and by the periodic refresh. *)
Definition refreshAccessData (user : option string) (b : Backend.t)
    (p : Page.t) : Page.t :=
  loadUserRequests user b (loadUserAccess user b p).

(** [handleLessonAccessUpdate], once its one-second timer has fired. *)
Definition handleLessonAccessUpdate (user : option string)
    (event_userId : string) (b : Backend.t) (p : Page.t) : Page.t :=
  if bool_decide (Some event_userId = user)
  then refreshAccessData user b p else p.

Definition handleVisibilityChange (user : option string)
    (document_hidden : bool) (visibilityState : string)
    (b : Backend.t) (p : Page.t) : Page.t :=
  if negb document_hidden && bool_decide (is_Some (user_id user))
     && String.eqb visibilityState "visible"
  then refreshAccessData user b p else p.

(** One tick of the sixty-second interval. *)
Definition periodicRefresh (user : option string) (document_hidden : bool)
    (b : Backend.t) (p : Page.t) : Page.t :=
  if negb document_hidden && bool_decide (is_Some (user_id user))
  then refreshAccessData user b p else p.

(** *** The request workflow *)

Definition handleRequestAccess (lesson : Lesson.t) (p : Page.t) : Page.t :=
  setShowRequestModal true (setRequestingLesson (Some lesson) p).

(** The modal is rendered when [showRequestModal && requestingLesson];
    [form_open_for lesson p] says it is rendered for [lesson]. *)
Definition form_open_for (lesson : Lesson.t) (p : Page.t) : Prop :=
  Page.showRequestModal p = true ∧ Page.requestingLesson p = Some lesson.

(** [submitLessonRequest].  [requestingLesson] is the value of the render
    the handler belongs to.  The updater given to [setUserRequests] calls
    [prev.set], which changes the [Map] object in place before copying it;
    that object is the one the [loadSubjects] closure holds, so the
    reload that follows reads the new entry. *)
Definition request_row (uid : string) (requestingLesson : Lesson.t)
    (message : string) : RequestInsert.t :=
  {| RequestInsert.user_id := uid;
     RequestInsert.lesson_id := Lesson.id requestingLesson;
     RequestInsert.subject_id := Lesson.subjectId requestingLesson;
     RequestInsert.message := if Js.truthy message then Some message else None;
     RequestInsert.status := "pending" |}.

Definition submitLessonRequest (user : option string) (message : string)
    (b : Backend.t) (p : Page.t) : Page.t :=
  match user_id user, Page.requestingLesson p with
  | Some uid, Some requestingLesson =>
      let row := request_row uid requestingLesson message in
      let p1 := emit (InsertInto "lesson_requests" row) p in
      match Backend.insert_lesson_requests b row with
      | Js.Resolved _ (Some _) =>
          emit (ToastError "Failed to submit request")
            (emit (ConsoleError "Error submitting request:") p1)
      | Js.Resolved _ None =>
          let p2 :=
            emit (ToastSuccess "Access request submitted successfully!") p1 in
          let requests :=
            <[Lesson.id requestingLesson := "pending"]> (Page.userRequests p2) in
          loadSubjects user (Page.userAccess p) requests b
            (setUserRequests requests p2)
      | Js.Rejected _ =>
          emit (ToastError "Failed to submit request")
            (emit (ConsoleError "Error submitting request:") p1)
      end
  | _, _ => p
  end.

(** The condition guarding every click path of a lesson card:
    [!lesson.hasAccess && lesson.requestStatus !== 'pending']. *)
Definition requestable (lesson : Lesson.t) : bool :=
  negb (Lesson.hasAccess lesson)
  && negb (String.eqb (Lesson.requestStatus lesson) "pending").

Definition handleLessonClick (lesson : Lesson.t) (p : Page.t) : Page.t :=
  if requestable lesson then handleRequestAccess lesson p else p.

(** [handleContainerClick id action]: the part that runs at once, and the
    callback of its 600 ms timer. *)
Definition handleContainerClick (id : string) (p : Page.t) : Page.t :=
  setLoadingContainers ({[id]} ∪ Page.loadingContainers p) p.

Definition handleContainerClick_timeout (id : string)
    (action : Page.t → Page.t) (p : Page.t) : Page.t :=
  action (setLoadingContainers (Page.loadingContainers p ∖ {[id]}) p).

(** [onClick] of a lesson card in [LessonsView], followed by the timer it
    may have started (the ripple animation is presentation only). *)
Definition lesson_card_onClick (lesson : Lesson.t) (p : Page.t) : Page.t :=
  if requestable lesson
  then handleContainerClick_timeout (Lesson.id lesson)
         (handleLessonClick lesson)
         (handleContainerClick (Lesson.id lesson) p)
  else p.

(** The four states of a lesson as the viewer sees it. *)
Definition unlocked (lesson : Lesson.t) : Prop :=
  Lesson.hasAccess lesson = true.

Definition locked (status : string) (lesson : Lesson.t) : Prop :=
  Lesson.hasAccess lesson = false ∧ Lesson.requestStatus lesson = status.

(** *** Navigation between the two views *)

(** [handleSubjectClick]: the subject is copied into [selectedSubject]
    as it is in the catalogue at the time of the click. *)
Definition handleSubjectClick (subject : Subject.t) (p : Page.t) : Page.t :=
  setCurrentView ViewLessons (setSelectedSubject (Some subject) p).

Definition handleBackToSubjects (p : Page.t) : Page.t :=
  setCurrentView ViewSubjects (setSelectedSubject None p).

(** [onClick] of a subject card in [SubjectsView], followed by the timer
    of [handleContainerClick]. *)
Definition subject_card_onClick (subject : Subject.t) (p : Page.t) : Page.t :=
  handleContainerClick_timeout (Subject.id subject)
    (handleSubjectClick subject)
    (handleContainerClick (Subject.id subject) p).

(** The lessons whose cards [LessonsView] draws: those of
    [selectedSubject], when the lessons view is the current one and the
    loader is not shown. *)
Definition displayed_lessons (p : Page.t) : option (list Lesson.t) :=
  if Page.loading p then None
  else match Page.currentView p, Page.selectedSubject p with
       | ViewLessons, Some subject => Some (Subject.lessons subject)
       | _, _ => None
       end.

(** ** The notifications page *)

Module NotificationData.
Record t := mk { icon : option string }.
End NotificationData.

Module Notification.
Record t := mk {
  id : string; userId : string; type : string; priority : string;
  readStatus : bool; title : string; message : string;
  createdAt : string; data : option NotificationData.t }.
End Notification.

Inductive Icon : Type :=
| faCheck | faStar | faExclamationCircle | faInfoCircle | faBell
| faCheckCircle.

Definition userNotifications (user : option string)
    (notifications : list Notification.t) : list Notification.t :=
  filter (λ n, Some (Notification.userId n) = user) notifications.

Definition unreadNotifications (user : option string)
    (notifications : list Notification.t) : list Notification.t :=
  filter (λ n, Notification.readStatus n = false)
    (userNotifications user notifications).

(** The state of the notifications page: the collection held by the data
    hook, the identifiers [markNotificationRead] was called with, the
    page's [loading] cell, and the toasts and console errors so far. *)
Module Feed.
Record t := mk {
  notifications : list Notification.t;
  marked : list string;
  loading : bool;
  trace : list Effect }.

Definition setLoading (v : bool) (f : t) : t :=
  mk (notifications f) (marked f) v (trace f).

Definition emit (e : Effect) (f : t) : t :=
  mk (notifications f) (marked f) (loading f) (trace f ++ [e]).
End Feed.

Section NotificationsPage.

(** [markNotificationRead] comes from the [useData] hook, which is
    outside the two components, so it is a parameter here: from the
    identifier and the collection, the collection after the call and
    whether the promise resolved ([true]) or rejected ([false]). *)
Variable markNotificationRead :
  string → list Notification.t → list Notification.t * bool.

(** [await markNotificationRead(id)]: the state after the call, and
    whether it resolved. *)
Definition call_markNotificationRead (id : string) (f : Feed.t)
    : Feed.t * bool :=
  let r := markNotificationRead id (Feed.notifications f) in
  (Feed.mk r.1 (Feed.marked f ++ [id]) (Feed.loading f) (Feed.trace f), r.2).

(** [handleNotificationClick]; when the call rejects the handler rejects
    with it, and nothing else happens. *)
Definition handleNotificationClick (notification : Notification.t)
    (f : Feed.t) : Feed.t :=
  if negb (Notification.readStatus notification)
  then (call_markNotificationRead (Notification.id notification) f).1
  else f.

(** The [for] loop of [markAllAsRead]: a call that rejects ends it, and
    the [catch] block takes over. *)
Fixpoint markAllAsRead_loop (l : list Notification.t) (f : Feed.t)
    : Feed.t * bool :=
  match l with
  | [] => (f, true)
  | notification :: l' =>
      let r := call_markNotificationRead (Notification.id notification) f in
      if r.2 then markAllAsRead_loop l' r.1 else (r.1, false)
  end.

(** [markAllAsRead]: the loop runs over the unread notifications of the
    render the callback belongs to. *)
Definition markAllAsRead (user : option string) (f : Feed.t) : Feed.t :=
  let unread := unreadNotifications user (Feed.notifications f) in
  if (length unread =? 0)%nat then f
  else
    let r := markAllAsRead_loop unread (Feed.setLoading true f) in
    Feed.setLoading false
      (if r.2
       then Feed.emit (ToastSuccess "All notifications marked as read") r.1
       else Feed.emit (ToastError "Failed to mark all as read")
              (Feed.emit (ConsoleError "Error marking all as read:") r.1)).

End NotificationsPage.

Definition getNotificationIcon (type : string) : Icon :=
  if String.eqb type "quiz_result" then faCheck
  else if String.eqb type "achievement" then faStar
  else if String.eqb type "reminder" then faExclamationCircle
  else if String.eqb type "broadcast" then faInfoCircle
  else faBell.

(** [notification.type === 'broadcast' &&
     notification.data?.icon === 'check-circle'] *)
Definition is_approval (notification : Notification.t) : bool :=
  String.eqb (Notification.type notification) "broadcast"
  && match Notification.data notification with
     | Some d =>
         match NotificationData.icon d with
         | Some i => String.eqb i "check-circle"
         | None => false
         end
     | None => false
     end.

Definition getNotificationIconForData (notification : Notification.t) : Icon :=
  if is_approval notification then faCheckCircle
  else getNotificationIcon (Notification.type notification).

Definition getNotificationColor (type priority : string) : string :=
  if String.eqb priority "high" then "text-red-600 bg-red-100"
  else if String.eqb priority "medium" then "text-yellow-600 bg-yellow-100"
  else if String.eqb type "quiz_result" then "text-green-600 bg-green-100"
  else if String.eqb type "achievement" then "text-purple-600 bg-purple-100"
  else if String.eqb type "reminder" then "text-orange-600 bg-orange-100"
  else if String.eqb type "broadcast" then "text-blue-600 bg-blue-100"
  else "text-gray-600 bg-gray-100".

Definition getNotificationColorForData (notification : Notification.t)
    : string :=
  if is_approval notification then "text-green-600 bg-green-100"
  else getNotificationColor (Notification.type notification)
         (Notification.priority notification).

(** ** Inputs to run the code on, and the statements under test *)

(** Small fixed inputs used to run the code. *)
Module Example.
Definition subject : SubjectRow.t :=
  SubjectRow.mk "s1" "Physics" "Mechanics and waves" "P" "from-red-500" None.

Definition lesson : LessonRow.t :=
  LessonRow.mk "l1" "Kinematics" "Motion in one dimension" "s1" None.

Definition video (id : string) (position : option Z) : VideoRow.t :=
  VideoRow.mk id id "" "https://youtu.be/x" "" "10:00" "l1" "2024-01-01"
    position.

(** Three videos fetched in this order, with positions 2, none, 0. *)
Definition videos : list VideoRow.t :=
  [ video "first" (Some 2%Z); video "second" None;
    video "third" (Some 0%Z) ].

(** Four videos as a query ordered by position returns them, with
    positions 0, 0, 0, 1. *)
Definition videos_in_position_order : list VideoRow.t :=
  [ video "a" (Some 0%Z); video "b" (Some 0%Z); video "c" (Some 0%Z);
    video "d" (Some 1%Z) ].

Definition catalogue (userAccess : gset string)
    (userRequests : gmap string string) : list Subject.t :=
  organizedSubjects userAccess userRequests (Some [subject])
    (Some [lesson]) (Some videos).

Definition the_lesson (userAccess : gset string)
    (userRequests : gmap string string) : Lesson.t :=
  assemble_lesson userAccess userRequests (Some videos) "s1" lesson.

Definition the_subject (userAccess : gset string)
    (userRequests : gmap string string) : Subject.t :=
  assemble_subject userAccess userRequests (Some [lesson]) (Some videos)
    subject.
End Example.

(** The request statuses of the data model: the type of
    [Lesson.requestStatus], and what the [status] column holds. *)
Definition is_request_status (status : string) : Prop :=
  status = "none" ∨ status = "pending" ∨ status = "approved"
  ∨ status = "rejected".

(** Every value of the request map is a request status. *)
Definition holds_request_statuses (userRequests : gmap string string) : Prop :=
  ∀ id status, userRequests !! id = Some status → is_request_status status.

(** The status of every lesson outside the access set is the request
    map's value, ['none'] when there is no entry. *)
Definition status_is_map_value (userAccess : gset string)
    (userRequests : gmap string string) (catalogue : list Subject.t) : Prop :=
  ∀ (s : Subject.t) (l : Lesson.t),
    s ∈ catalogue → l ∈ Subject.lessons s → Lesson.id l ∉ userAccess →
    Lesson.requestStatus l = default "none" (userRequests !! Lesson.id l).

(** Three backends: every call answers with an error object, every call
    rejects, every call succeeds. *)
Module Scenario.
Definition erroring : Backend.t :=
  Backend.mk (λ _, Js.Resolved None (Some "permission denied"))
    (λ _, Js.Resolved None (Some "permission denied"))
    (Js.Resolved None (Some "permission denied"))
    (Js.Resolved None (Some "permission denied"))
    (Js.Resolved None (Some "permission denied"))
    (λ _, Js.Resolved None (Some "permission denied")).

Definition rejecting : Backend.t :=
  Backend.mk (λ _, Js.Rejected "Failed to fetch")
    (λ _, Js.Rejected "Failed to fetch")
    (Js.Rejected "Failed to fetch") (Js.Rejected "Failed to fetch")
    (Js.Rejected "Failed to fetch") (λ _, Js.Rejected "Failed to fetch").

Definition healthy : Backend.t :=
  Backend.mk (λ _, Js.Resolved (Some [AccessRow.mk "l2"]) None)
    (λ _, Js.Resolved (Some [RequestRow.mk "l1" "rejected"]) None)
    (Js.Resolved (Some [Example.subject]) None)
    (Js.Resolved (Some [Example.lesson]) None)
    (Js.Resolved (Some Example.videos) None)
    (λ _, Js.Resolved None None).

(** A page that already holds a snapshot: "l1" granted, a pending
    request for "l3". *)
Definition loaded : Page.t :=
  setUserRequests {["l3" := "pending"]}
    (setUserAccess {["l1"]} Page.initial).
End Scenario.

(** The subject query fails: it answers with an error object, or the
    call rejects. *)
Definition subject_query_fails (b : Backend.t) : Prop :=
  match Backend.subjects b with
  | Js.Resolved _ (Some _) => True
  | Js.Resolved _ None => False
  | Js.Rejected _ => True
  end.

(** The insert of the request row succeeds: the answer carries no error. *)
Definition insert_succeeds (b : Backend.t) (row : RequestInsert.t) : Prop :=
  match Backend.insert_lesson_requests b row with
  | Js.Resolved _ None => True
  | _ => False
  end.

(** The insert fails: the answer carries an error, or the call rejects. *)
Definition insert_fails (b : Backend.t) (row : RequestInsert.t) : Prop :=
  match Backend.insert_lesson_requests b row with
  | Js.Resolved _ None => False
  | _ => True
  end.

Module SubmitExample.
(** A locked lesson whose last request was rejected. *)
Definition X : Lesson.t :=
  Lesson.mk "l1" "Kinematics" "" "s1" None 0 [] false "rejected".

Definition page : Page.t :=
  setRequestingLesson (Some X)
    (setShowRequestModal true
       (setUserRequests {["l1" := "rejected"]} Page.initial)).
End SubmitExample.

(** C7 as the claim states it: a click opens the form exactly when the
    lesson is locked with status ['none'] or ['rejected']. *)
Definition opens_exactly_when_none_or_rejected (lesson : Lesson.t)
    (p : Page.t) : Prop :=
  form_open_for lesson (lesson_card_onClick lesson p)
  ↔ locked "none" lesson ∨ locked "rejected" lesson.

Module ClickExample.
(** A lesson whose request was approved while the access set does not
    hold it (the two come from different tables and fetches). *)
Definition approved_without_access : Lesson.t :=
  Lesson.mk "l1" "Kinematics" "" "s1" None 0 [] false "approved".
End ClickExample.

Module FeedExample.
Definition read_one : Notification.t :=
  Notification.mk "n1" "u1" "broadcast" "high" true "Lesson approved"
    "Your request was approved" "2024-01-01"
    (Some (NotificationData.mk (Some "check-circle"))).

Definition unread_one : Notification.t :=
  Notification.mk "n2" "u1" "reminder" "medium" false "Quiz tomorrow"
    "Revise chapter 3" "2024-01-02" None.

Definition feed : Feed.t := Feed.mk [read_one; unread_one] [] false [].

(** A data hook that sets the read flag of the notification named, and
    resolves. *)
Definition mark (id : string) (ns : list Notification.t)
    : list Notification.t * bool :=
  ((λ n, if String.eqb (Notification.id n) id
         then Notification.mk (Notification.id n) (Notification.userId n)
                (Notification.type n) (Notification.priority n) true
                (Notification.title n) (Notification.message n)
                (Notification.createdAt n) (Notification.data n)
         else n) <$> ns, true).
End FeedExample.

(** ** The rest of the two components *)

(** [onClose] as [LessonsPage] hands it to [LessonRequestModal]. *)
Definition closeRequestModal (p : Page.t) : Page.t :=
  setRequestingLesson None (setShowRequestModal false p).

(** [handleSubmit] of [LessonRequestModal].  [onSubmit] is
    [submitLessonRequest], which catches what it awaits, so the [catch]
    block of [handleSubmit] is never entered and [onClose] always follows.
    The modal's own [loading] flag disappears with the modal. *)
Definition modal_handleSubmit (user : option string) (message : string)
    (b : Backend.t) (p : Page.t) : Page.t :=
  closeRequestModal (submitLessonRequest user message b p).

(** [getStatusBadge] of [LessonsView], by the text of the badge. *)
Inductive StatusBadge : Type :=
| BadgeOwned | BadgePending | BadgeRejected | BadgeLocked.

Definition getStatusBadge (lesson : Lesson.t) : StatusBadge :=
  if Lesson.hasAccess lesson then BadgeOwned
  else if String.eqb (Lesson.requestStatus lesson) "pending" then BadgePending
  else if String.eqb (Lesson.requestStatus lesson) "rejected"
       then BadgeRejected
  else BadgeLocked.

(** The text of the lock overlay of a card, when the overlay is drawn. *)
Definition lock_overlay (lesson : Lesson.t) : option string :=
  if negb (Lesson.hasAccess lesson)
  then Some (if String.eqb (Lesson.requestStatus lesson) "pending"
             then "Request Pending" else "Request Access")
  else None.

(** [onClick] of the "Request Access" button of a card; the button is
    drawn under the same condition as the card is clickable. *)
Definition request_button_onClick (lesson : Lesson.t) (p : Page.t)
    : option Page.t :=
  if requestable lesson then Some (handleLessonClick lesson p) else None.

(** [getPriorityBadge]: the variant and the text of the badge, if any. *)
Inductive BadgeVariant : Type := error | warning | gray.

Definition getPriorityBadge (priority : string)
    : option (BadgeVariant * string) :=
  if String.eqb priority "high" then Some (error, "High")
  else if String.eqb priority "medium" then Some (warning, "Medium")
  else if String.eqb priority "low" then Some (gray, "Low")
  else None.

(** What a well-behaved data hook does: the notifications with the given
    identifier become read, nothing else changes, and the call
    resolves. *)
Definition set_read (n : Notification.t) : Notification.t :=
  Notification.mk (Notification.id n) (Notification.userId n)
    (Notification.type n) (Notification.priority n) true
    (Notification.title n) (Notification.message n)
    (Notification.createdAt n) (Notification.data n).

Definition marks_by_id
    (markNotificationRead :
       string → list Notification.t → list Notification.t * bool)
    : Prop :=
  ∀ id ns,
    markNotificationRead id ns
    = ((λ n, if String.eqb (Notification.id n) id then set_read n else n)
         <$> ns, true).

(** Toasts and inserts of a trace. *)
Definition is_toast (e : Effect) : bool :=
  match e with
  | ToastError _ | ToastSuccess _ => true
  | _ => false
  end.

Definition is_insert (e : Effect) : bool :=
  match e with
  | InsertInto _ _ => true
  | _ => false
  end.

Definition toasts (tr : list Effect) : list Effect :=
  filter (λ e, is_toast e = true) tr.

Definition inserts (tr : list Effect) : list Effect :=
  filter (λ e, is_insert e = true) tr.

Module MoreScenarios.
(** The subject query answers without error and without data; the other
    two answer normally. *)
Definition no_subject_data : Backend.t :=
  Backend.mk (λ _, Js.Resolved (Some []) None) (λ _, Js.Resolved (Some []) None)
    (Js.Resolved None None)
    (Js.Resolved
       (Some [LessonRow.mk "l9" "Networks" "" "ict" None; Example.lesson])
       None)
    (Js.Resolved (Some Example.videos) None)
    (λ _, Js.Resolved None None).

(** The lessons query answers with an error, the rest is healthy. *)
Definition lessons_error : Backend.t :=
  Backend.mk (λ _, Js.Resolved (Some []) None) (λ _, Js.Resolved (Some []) None)
    (Js.Resolved (Some [Example.subject]) None)
    (Js.Resolved None (Some "permission denied"))
    (Js.Resolved (Some Example.videos) None)
    (λ _, Js.Resolved None None).

(** Two request rows for the same lesson: the later one is the one
    kept. *)
Definition two_requests : Backend.t :=
  Backend.mk (λ _, Js.Resolved (Some [AccessRow.mk "l2"; AccessRow.mk "l2"]) None)
    (λ _, Js.Resolved
            (Some [RequestRow.mk "l1" "rejected"; RequestRow.mk "l4" "approved";
                   RequestRow.mk "l1" "pending"]) None)
    (Js.Resolved (Some [Example.subject]) None)
    (Js.Resolved (Some [Example.lesson]) None)
    (Js.Resolved (Some Example.videos) None)
    (λ _, Js.Resolved None None).

(** Videos with positions 3, 1, 2, all present and non-zero. *)
Definition positioned_videos : list VideoRow.t :=
  [ Example.video "x" (Some 3%Z); Example.video "y" (Some 1%Z);
    Example.video "z" (Some 2%Z) ].

(** A lesson row that belongs to no subject of [Example]. *)
Definition orphan : LessonRow.t :=
  LessonRow.mk "l7" "Optics" "" "no-such-subject" None.

Definition other_users_one : Notification.t :=
  Notification.mk "n3" "u2" "achievement" "low" false "Badge" "Well done"
    "2024-01-03" None.

Definition another_unread_one : Notification.t :=
  Notification.mk "n4" "u1" "quiz_result" "none" false "Quiz 2" "Score 8/10"
    "2024-01-04" None.

Definition mixed_feed : Feed.t :=
  Feed.mk [FeedExample.read_one; FeedExample.unread_one; other_users_one;
           another_unread_one] [] false [].

(** A data hook whose call for "n4" rejects and leaves the collection
    alone; otherwise it behaves as [FeedExample.mark]. *)
Definition mark_failing_on_n4 (id : string) (ns : list Notification.t)
    : list Notification.t * bool :=
  if String.eqb id "n4" then (ns, false) else FeedExample.mark id ns.

(** A data hook that rejects every call. *)
Definition mark_rejecting (id : string) (ns : list Notification.t)
    : list Notification.t * bool := (ns, false).
End MoreScenarios.

(** * Properties *)

(** ** The sort *)

Section Sort.
Context {A : Type} (key : A → Z).

Local Abbreviation by_key := (Js.by_key key).

Lemma sort_insert_perm (cmp : A → A → Z) x l :
  Js.sort_insert cmp x l ≡ₚ x :: l.
Proof.
  induction l as [|y l IH]; simpl; [done|].
  destruct (cmp x y <=? 0)%Z; [done|].
  rewrite IH. apply Permutation_swap.
Qed.

Lemma sort_perm (cmp : A → A → Z) l : Js.sort cmp l ≡ₚ l.
Proof.
  induction l as [|x l IH]; simpl; [done|].
  rewrite sort_insert_perm. by rewrite IH.
Qed.

Lemma sort_ext (cmp cmp' : A → A → Z) l :
  (∀ a b, cmp a b = cmp' a b) → Js.sort cmp l = Js.sort cmp' l.
Proof.
  intros H. induction l as [|x l IH]; simpl; [done|]. rewrite IH.
  generalize (Js.sort cmp' l) as r.
  induction r as [|y r IHr]; simpl; [done|]. by rewrite H, IHr.
Qed.

Lemma sort_length (cmp : A → A → Z) l : length (Js.sort cmp l) = length l.
Proof. by rewrite sort_perm. Qed.

Lemma sort_insert_sorted x l :
  Sorted (λ a b, (key a ≤ key b)%Z) l →
  Sorted (λ a b, (key a ≤ key b)%Z) (Js.sort_insert by_key x l).
Proof.
  induction 1 as [|y l Hl IH Hhd]; simpl.
  - repeat constructor.
  - unfold Js.by_key at 1. destruct (Z.leb_spec (key x - key y) 0).
    + constructor; [by constructor|]. constructor. lia.
    + constructor; [done|].
      destruct Hhd as [|z l Hyz]; simpl.
      * constructor. lia.
      * unfold Js.by_key. destruct (Z.leb_spec (key x - key z) 0);
          constructor; lia.
Qed.

(** The result is in ascending order of the key. *)
Lemma sort_sorted l :
  Sorted (λ a b, (key a ≤ key b)%Z) (Js.sort by_key l).
Proof.
  induction l as [|x l IH]; simpl; [constructor|].
  by apply sort_insert_sorted.
Qed.

(** Stability: the elements of any one key keep their order. *)
Lemma sort_insert_stable k x l :
  filter (λ a, key a = k) (Js.sort_insert by_key x l)
  = filter (λ a, key a = k) (x :: l).
Proof.
  induction l as [|y l IH]; simpl; [done|].
  unfold Js.by_key at 1. destruct (Z.leb_spec (key x - key y) 0); [done|].
  rewrite filter_cons, IH, !filter_cons.
  repeat case_decide; try done; lia.
Qed.

Lemma sort_stable k l :
  filter (λ a, key a = k) (Js.sort by_key l) = filter (λ a, key a = k) l.
Proof.
  induction l as [|x l IH]; simpl; [done|].
  rewrite sort_insert_stable, !filter_cons, IH. done.
Qed.
End Sort.

(** ** The catalogue assembler *)

(** Every lesson of the assembled catalogue is [assemble_lesson] of a
    fetched lesson row. *)
Lemma assembled_lesson_inv userAccess userRequests subjectsData lessonsData
    videosData (s : Subject.t) (l : Lesson.t) :
  s ∈ organizedSubjects userAccess userRequests subjectsData lessonsData
        videosData →
  l ∈ Subject.lessons s →
  ∃ subject_id lesson,
    lesson ∈ default [] lessonsData
    ∧ l = assemble_lesson userAccess userRequests videosData subject_id lesson.
Proof.
  unfold organizedSubjects. intros Hs Hl.
  apply list_elem_of_fmap in Hs as (row & -> & _). simpl in Hl.
  apply list_elem_of_fmap in Hl as (lesson & -> & Hin).
  apply list_elem_of_filter in Hin as [_ Hin]. eauto.
Qed.

(** C1: a lesson of the assembled catalogue whose identifier is in the
    access set has [hasAccess = true], whatever the request map holds
    (the request map is not read for this field). *)
Theorem access_overrides_request_state
    (userAccess : gset string) (userRequests : gmap string string)
    subjectsData lessonsData videosData (s : Subject.t) (l : Lesson.t) :
  s ∈ organizedSubjects userAccess userRequests subjectsData lessonsData
        videosData →
  l ∈ Subject.lessons s →
  Lesson.id l ∈ userAccess →
  Lesson.hasAccess l = true.
Proof.
  intros Hs Hl Hacc.
  destruct (assembled_lesson_inv _ _ _ _ _ _ _ Hs Hl) as (sid & row & _ & ->).
  simpl in *. by apply bool_decide_eq_true.
Qed.

(** The lesson "l1" is granted and also has a rejected request: it is
    unlocked. *)
Lemma access_overrides_request_state_witness :
  Lesson.hasAccess (Example.the_lesson {["l1"]} {["l1" := "rejected"]}) = true.
Proof.
  apply (access_overrides_request_state {["l1"]} {["l1" := "rejected"]}
           (Some [Example.subject]) (Some [Example.lesson])
           (Some Example.videos)
           (Example.the_subject {["l1"]} {["l1" := "rejected"]})).
  - apply list_elem_of_here.
  - apply list_elem_of_here.
  - simpl. apply elem_of_singleton. reflexivity.
Defined.

(** The status of an assembled lesson, by what the request map holds for
    it: a non-empty value is taken as it is; no entry, or the empty
    string, gives ['none']. *)
Lemma request_status_of_lesson
    (userAccess : gset string) (userRequests : gmap string string)
    subjectsData lessonsData videosData (s : Subject.t) (l : Lesson.t) :
  s ∈ organizedSubjects userAccess userRequests subjectsData lessonsData
        videosData →
  l ∈ Subject.lessons s →
  (∀ v, userRequests !! Lesson.id l = Some v → v ≠ "" →
        Lesson.requestStatus l = v)
  ∧ (userRequests !! Lesson.id l = Some "" → Lesson.requestStatus l = "none")
  ∧ (userRequests !! Lesson.id l = None → Lesson.requestStatus l = "none").
Proof.
  intros Hs Hl.
  destruct (assembled_lesson_inv _ _ _ _ _ _ _ Hs Hl) as (sid & row & _ & ->).
  simpl. repeat split.
  - intros v -> Hv. simpl. unfold Js.truthy.
    destruct (String.eqb_spec v ""); [done|reflexivity].
  - by intros ->.
  - by intros ->.
Qed.

Lemma request_status_nonempty (status : string) :
  is_request_status status → status ≠ "".
Proof. intros [ -> | [ -> | [ -> | -> ] ] ]; discriminate. Qed.

(** C2: when the request map holds request statuses, every lesson of the
    assembled catalogue whose identifier is not in the access set has as
    [requestStatus] the value the request map stores for it, and
    ['none'] when the map has no entry for it. *)
Theorem request_status_is_map_value
    (userAccess : gset string) (userRequests : gmap string string)
    subjectsData lessonsData videosData :
  holds_request_statuses userRequests →
  status_is_map_value userAccess userRequests
    (organizedSubjects userAccess userRequests subjectsData lessonsData
       videosData).
Proof.
  intros Hdom s l Hs Hl _.
  destruct (request_status_of_lesson _ _ _ _ _ _ _ Hs Hl)
    as (Hsome & _ & Hnone).
  destruct (userRequests !! Lesson.id l) as [status|] eqn:Hlookup.
  - simpl. apply Hsome; [done|].
    eapply request_status_nonempty, Hdom, Hlookup.
  - by apply Hnone.
Qed.

(** The lesson "l1" is locked and its request was rejected. *)
Lemma request_status_is_map_value_witness :
  Lesson.requestStatus (Example.the_lesson ∅ {["l1" := "rejected"]})
  = default "none"
      (({["l1" := "rejected"]} : gmap string string) !! "l1").
Proof.
  refine (request_status_is_map_value ∅ {["l1" := "rejected"]}
            (Some [Example.subject]) (Some [Example.lesson])
            (Some Example.videos) _
            (Example.the_subject ∅ {["l1" := "rejected"]})
            (Example.the_lesson ∅ {["l1" := "rejected"]}) _ _ _).
  - intros id status Hlookup.
    apply lookup_singleton_Some in Hlookup as [_ <-].
    right. right. right. reflexivity.
  - apply list_elem_of_here.
  - apply list_elem_of_here.
  - apply not_elem_of_empty.
Defined.

(** The second [|| 0] of the comparator changes nothing: the key it
    sorts by is the position stored in the view model. *)
Lemma or_number_zero (n : Z) : Js.or_number (Some n) 0 = n.
Proof. simpl. destruct (Z.eqb_spec n 0); congruence. Qed.

(** The videos of an assembled lesson are the lesson's videos, in
    ascending order of the position stored in the view model, videos of
    equal position in fetch order. *)
Lemma assembled_videos_sorted userAccess userRequests videosData subject_id
    lesson :
  let l := assemble_lesson userAccess userRequests videosData subject_id
             lesson in
  Lesson.videos l
    ≡ₚ lessonVideos subject_id (LessonRow.id lesson) videosData
  ∧ Sorted (λ a b, (LessonVideo.position a ≤ LessonVideo.position b)%Z)
      (Lesson.videos l)
  ∧ ∀ k, filter (λ v, LessonVideo.position v = k) (Lesson.videos l)
         = filter (λ v, LessonVideo.position v = k)
             (lessonVideos subject_id (LessonRow.id lesson) videosData).
Proof.
  simpl. split; [apply sort_perm|].
  rewrite (sort_ext video_cmp (Js.by_key LessonVideo.position))
    by (intros a b; unfold video_cmp; by rewrite !or_number_zero).
  split; [apply sort_sorted|]. intros k. apply sort_stable.
Qed.

(** C3, the code at the specification's own input: three videos fetched
    with positions 2, none, 0.  [video.position || index] reads the
    position 0 of the third video as missing and gives it its index 2, so
    the positions become 2, 1, 2 and the order is second, first, third,
    where third, first, second is expected.  The same happens on an input
    that arrives ordered by position: with positions 0, 0, 0, 1 the third
    video gets position 2 and ends up behind the fourth. *)
Theorem zero_position_sorts_as_missing :
  LessonVideo.position
    <$> lessonVideos "s1" "l1" (Some Example.videos) = [2; 1; 2]%Z
  ∧ LessonVideo.id <$> Lesson.videos (Example.the_lesson ∅ ∅)
    = ["second"; "first"; "third"]
  ∧ LessonVideo.id <$> Lesson.videos (Example.the_lesson ∅ ∅)
    ≠ ["third"; "first"; "second"]
  ∧ LessonVideo.id
      <$> Lesson.videos
            (assemble_lesson ∅ ∅ (Some Example.videos_in_position_order)
               "s1" Example.lesson)
    = ["a"; "b"; "d"; "c"].
Proof.
  split; [reflexivity|]. split; [reflexivity|].
  split; [|reflexivity]. vm_compute. discriminate.
Qed.

(** ** The access snapshot store *)

(** The [if (error) return] path leaves the half it was to refresh as it
    was; the [catch] path empties it. *)
Lemma loadUserAccess_error (user : option string) b p uid data e :
  user_id user = Some uid →
  Backend.user_lesson_access b uid = Js.Resolved data (Some e) →
  Page.userAccess (loadUserAccess user b p) = Page.userAccess p.
Proof. intros Hu Hb. unfold loadUserAccess. by rewrite Hu, Hb. Qed.

Lemma loadUserAccess_rejected (user : option string) b p uid r :
  user_id user = Some uid →
  Backend.user_lesson_access b uid = Js.Rejected r →
  Page.userAccess (loadUserAccess user b p) = ∅.
Proof. intros Hu Hb. unfold loadUserAccess. by rewrite Hu, Hb. Qed.

Lemma loadUserRequests_error (user : option string) b p uid data e :
  user_id user = Some uid →
  Backend.lesson_requests b uid = Js.Resolved data (Some e) →
  Page.userRequests (loadUserRequests user b p) = Page.userRequests p.
Proof. intros Hu Hb. unfold loadUserRequests. by rewrite Hu, Hb. Qed.

Lemma loadUserRequests_rejected (user : option string) b p uid r :
  user_id user = Some uid →
  Backend.lesson_requests b uid = Js.Rejected r →
  Page.userRequests (loadUserRequests user b p) = ∅.
Proof. intros Hu Hb. unfold loadUserRequests. by rewrite Hu, Hb. Qed.

(** C4, the code at a failing fetch: when the backend answers with an
    error object, both halves of the snapshot keep their previous value
    where an empty one is expected; only when the call rejects does the
    [catch] block empty them. *)
Theorem error_answer_keeps_previous_snapshot :
  Page.userAccess (loadUserAccess (Some "u1") Scenario.erroring Scenario.loaded)
  = {["l1"]}
  ∧ Page.userAccess
      (loadUserAccess (Some "u1") Scenario.erroring Scenario.loaded) ≠ ∅
  ∧ Page.userRequests
      (loadUserRequests (Some "u1") Scenario.erroring Scenario.loaded)
    = {["l3" := "pending"]}
  ∧ Page.userRequests
      (loadUserRequests (Some "u1") Scenario.erroring Scenario.loaded) ≠ ∅
  ∧ Page.userAccess
      (loadUserAccess (Some "u1") Scenario.rejecting Scenario.loaded) = ∅
  ∧ Page.userRequests
      (loadUserRequests (Some "u1") Scenario.rejecting Scenario.loaded) = ∅.
Proof.
  repeat split.
  - simpl. intros H. apply (not_elem_of_empty (C:=gset string) "l1").
    rewrite <- H. by apply elem_of_singleton.
  - simpl. apply insert_non_empty.
Qed.

(** ** The fallback catalogue *)

(** C5: when the subject query fails, [loadSubjects] sets the catalogue
    to the built-in fallback, which has exactly three subjects, each
    with an empty lesson list and [lessonCount] 0. *)
Theorem fallback_catalogue_on_subject_failure
    (user : option string) (userAccess : gset string)
    (userRequests : gmap string string) (b : Backend.t) (p : Page.t) :
  is_Some (user_id user) →
  subject_query_fails b →
  Page.subjects (loadSubjects user userAccess userRequests b p)
  = getDefaultSubjects
  ∧ Subject.id <$> getDefaultSubjects = ["sft"; "et"; "ict"]
  ∧ Forall (λ s, Subject.lessons s = [] ∧ Subject.lessonCount s = 0)
      getDefaultSubjects.
Proof.
  intros [uid Hu] Hfail. split; [|split].
  - unfold loadSubjects, subject_query_fails in *. rewrite Hu.
    destruct (Backend.subjects b) as [d [e|]|r]; [reflexivity|done|reflexivity].
  - reflexivity.
  - repeat constructor.
Qed.

Lemma fallback_catalogue_on_subject_failure_witness :
  Page.subjects (loadSubjects (Some "u1") {["l1"]} ∅ Scenario.erroring
                   Scenario.loaded)
  = getDefaultSubjects
  ∧ Page.subjects (loadSubjects (Some "u1") {["l1"]} ∅ Scenario.rejecting
                     Scenario.loaded)
    = getDefaultSubjects.
Proof.
  split.
  - apply (fallback_catalogue_on_subject_failure (Some "u1") {["l1"]} ∅
             Scenario.erroring Scenario.loaded).
    + exists "u1". reflexivity.
    + exact I.
  - apply (fallback_catalogue_on_subject_failure (Some "u1") {["l1"]} ∅
             Scenario.rejecting Scenario.loaded).
    + exists "u1". reflexivity.
    + exact I.
Defined.

(** ** The request workflow *)

Lemma loadSubjects_userRequests user userAccess userRequests b p :
  Page.userRequests (loadSubjects user userAccess userRequests b p)
  = Page.userRequests p.
Proof.
  unfold loadSubjects. destruct (user_id user); [|done].
  destruct (Backend.subjects b) as [? [?|]|?]; try done.
  destruct (Backend.subject_lessons b) as [? [?|]|?]; try done;
    destruct (Backend.lesson_videos b) as [? [?|]|?]; done.
Qed.

(** C6: submitting a request for lesson [X].  If the insert succeeds the
    request map becomes the old one with [X] set to ['pending']; if it
    fails the request map and the assembled catalogue are what they were,
    so the status of [X] is unchanged. *)
Theorem submit_sets_pending_only_on_success
    (user : option string) (uid message : string) (b : Backend.t)
    (p : Page.t) (X : Lesson.t) :
  user_id user = Some uid →
  Page.requestingLesson p = Some X →
  (insert_succeeds b (request_row uid X message) →
     Page.userRequests (submitLessonRequest user message b p)
     = <[Lesson.id X := "pending"]> (Page.userRequests p)
     ∧ Page.userRequests (submitLessonRequest user message b p)
         !! Lesson.id X = Some "pending")
  ∧ (insert_fails b (request_row uid X message) →
     Page.userRequests (submitLessonRequest user message b p)
     = Page.userRequests p
     ∧ Page.subjects (submitLessonRequest user message b p)
       = Page.subjects p).
Proof.
  intros Hu HX. unfold submitLessonRequest, insert_succeeds, insert_fails.
  rewrite Hu, HX.
  destruct (Backend.insert_lesson_requests b (request_row uid X message))
    as [d [e|]|r]; split; try done.
  intros _. rewrite loadSubjects_userRequests. simpl.
  split; [done|]. apply lookup_insert_eq.
Qed.

Lemma submit_sets_pending_only_on_success_witness :
  Page.userRequests
    (submitLessonRequest (Some "u1") "please" Scenario.healthy
       SubmitExample.page) !! "l1" = Some "pending"
  ∧ Page.userRequests
      (submitLessonRequest (Some "u1") "please" Scenario.erroring
         SubmitExample.page) = {["l1" := "rejected"]}.
Proof.
  split.
  - apply (submit_sets_pending_only_on_success (Some "u1") "u1" "please"
             Scenario.healthy SubmitExample.page SubmitExample.X
             eq_refl eq_refl).
    exact I.
  - apply (submit_sets_pending_only_on_success (Some "u1") "u1" "please"
             Scenario.erroring SubmitExample.page SubmitExample.X
             eq_refl eq_refl).
    exact I.
Defined.

(** C7, counterexample: the lesson is neither locked(none) nor
    locked(rejected), and clicking it opens the form. *)
Lemma opens_exactly_when_none_or_rejected_fails :
  ¬ opens_exactly_when_none_or_rejected ClickExample.approved_without_access
      Page.initial.
Proof.
  intros [H _].
  destruct (H (conj eq_refl eq_refl)) as [[_ E]|[_ E]]; discriminate E.
Qed.

Lemma requestable_spec (lesson : Lesson.t) :
  requestable lesson = true
  ↔ Lesson.hasAccess lesson = false ∧ Lesson.requestStatus lesson ≠ "pending".
Proof.
  unfold requestable. rewrite andb_true_iff, !negb_true_iff.
  by rewrite String.eqb_neq.
Qed.

Lemma handleLessonClick_opens (lesson : Lesson.t) (p : Page.t) :
  Page.showRequestModal p = false →
  form_open_for lesson (handleLessonClick lesson p)
  ↔ requestable lesson = true.
Proof.
  intros Hclosed. unfold handleLessonClick, form_open_for.
  destruct (requestable lesson); simpl; [by split|].
  rewrite Hclosed. split; [intros [? _]|]; done.
Qed.

Lemma lesson_card_onClick_opens (lesson : Lesson.t) (p : Page.t) :
  Page.showRequestModal p = false →
  form_open_for lesson (lesson_card_onClick lesson p)
  ↔ requestable lesson = true.
Proof.
  intros Hclosed. unfold lesson_card_onClick.
  destruct (requestable lesson) eqn:Hr.
  - unfold handleContainerClick_timeout, handleLessonClick. rewrite Hr.
    by split.
  - unfold form_open_for. rewrite Hclosed. split; [intros [? _]|]; done.
Qed.

(** C7, amended: with the form closed, a click on the card (and the
    "Request Access" button, which calls [handleLessonClick]) opens the
    form for the lesson exactly when the lesson has no access and its
    request status is not ['pending'].  So locked(none) and
    locked(rejected) open it, locked(pending) and unlocked never do. *)
Theorem click_opens_form_iff_not_pending (lesson : Lesson.t) (p : Page.t) :
  Page.showRequestModal p = false →
  (form_open_for lesson (lesson_card_onClick lesson p)
   ↔ Lesson.hasAccess lesson = false
     ∧ Lesson.requestStatus lesson ≠ "pending")
  ∧ (form_open_for lesson (handleLessonClick lesson p)
     ↔ Lesson.hasAccess lesson = false
       ∧ Lesson.requestStatus lesson ≠ "pending")
  ∧ (locked "none" lesson ∨ locked "rejected" lesson →
     form_open_for lesson (lesson_card_onClick lesson p))
  ∧ (locked "pending" lesson ∨ unlocked lesson →
     ¬ form_open_for lesson (lesson_card_onClick lesson p)).
Proof.
  intros Hclosed.
  rewrite lesson_card_onClick_opens, handleLessonClick_opens,
    requestable_spec by done.
  unfold locked, unlocked. split; [done|]. split; [done|]. split.
  - intros [[-> ->]|[-> ->]]; by split.
  - intros [[_ ->]| ->] [? ?]; done.
Qed.

Lemma click_opens_form_iff_not_pending_witness :
  form_open_for ClickExample.approved_without_access
    (lesson_card_onClick ClickExample.approved_without_access Page.initial)
  ∧ form_open_for SubmitExample.X
      (lesson_card_onClick SubmitExample.X Page.initial).
Proof.
  split.
  - apply (proj1 (click_opens_form_iff_not_pending
                    ClickExample.approved_without_access Page.initial
                    eq_refl)).
    split; [reflexivity|discriminate].
  - apply (proj1 (proj2 (proj2 (click_opens_form_iff_not_pending
                                  SubmitExample.X Page.initial eq_refl)))).
    right. split; reflexivity.
Defined.

(** ** The refresh triggers *)

Lemma fetches_app table (tr1 tr2 : list Effect) :
  fetches table (tr1 ++ tr2) = fetches table tr1 + fetches table tr2.
Proof. unfold fetches. by rewrite filter_app, length_app. Qed.

Lemma fetches_singleton table (e : Effect) :
  fetches table [e] = if is_select table e then 1 else 0.
Proof.
  unfold fetches. rewrite filter_cons, filter_nil.
  destruct (is_select table e); by case_decide.
Qed.

(** One call of [loadUserAccess] by a signed-in user queries
    [user_lesson_access] once and no other table. *)
Lemma loadUserAccess_fetches table (uid : string) b p :
  Js.truthy uid = true →
  fetches table (Page.trace (loadUserAccess (Some uid) b p))
  = fetches table (Page.trace p)
    + (if String.eqb "user_lesson_access" table then 1 else 0).
Proof.
  intros Hu. unfold loadUserAccess, user_id. rewrite Hu.
  destruct (Backend.user_lesson_access b uid) as [d [e|]|r]; simpl;
    rewrite ?fetches_app, ?fetches_singleton; simpl;
    destruct (String.eqb "user_lesson_access" table); lia.
Qed.

Lemma loadUserRequests_fetches table (uid : string) b p :
  Js.truthy uid = true →
  fetches table (Page.trace (loadUserRequests (Some uid) b p))
  = fetches table (Page.trace p)
    + (if String.eqb "lesson_requests" table then 1 else 0).
Proof.
  intros Hu. unfold loadUserRequests, user_id. rewrite Hu.
  destruct (Backend.lesson_requests b uid) as [d [e|]|r]; simpl;
    rewrite ?fetches_app, ?fetches_singleton; simpl;
    destruct (String.eqb "lesson_requests" table); lia.
Qed.

(** C8, the code at the initial-mount trigger: for the signed-in user
    "u1", whatever the backend answers and whatever the page holds, the
    effect queries [lesson_requests] twice and [user_lesson_access] not
    at all, where once each is expected.  The other triggers, through
    [refreshAccessData], query each table once. *)
Theorem initial_load_fetches_requests_twice (b : Backend.t) (p : Page.t) :
  fetches "user_lesson_access" (Page.trace (initialDataLoad (Some "u1") b p))
  = fetches "user_lesson_access" (Page.trace p) + 0
  ∧ fetches "lesson_requests" (Page.trace (initialDataLoad (Some "u1") b p))
    = fetches "lesson_requests" (Page.trace p) + 2
  ∧ fetches "user_lesson_access"
      (Page.trace (refreshAccessData (Some "u1") b p))
    = fetches "user_lesson_access" (Page.trace p) + 1
  ∧ fetches "lesson_requests"
      (Page.trace (refreshAccessData (Some "u1") b p))
    = fetches "lesson_requests" (Page.trace p) + 1.
Proof.
  unfold initialDataLoad, refreshAccessData. simpl.
  rewrite !loadUserRequests_fetches, !loadUserAccess_fetches by reflexivity.
  simpl. lia.
Qed.

(** ** Notifications *)

(** C9: the read-marking action of the page, [handleNotificationClick],
    on a notification that is already read: [markNotificationRead] is
    not called, the collection is untouched and the number of unread
    notifications is what it was. *)
Theorem click_on_read_notification_is_noop
    (markNotificationRead :
       string → list Notification.t → list Notification.t * bool)
    (user : option string) (notification : Notification.t) (f : Feed.t) :
  Notification.readStatus notification = true →
  handleNotificationClick markNotificationRead notification f = f
  ∧ length (unreadNotifications user
              (Feed.notifications
                 (handleNotificationClick markNotificationRead
                    notification f)))
    = length (unreadNotifications user (Feed.notifications f)).
Proof.
  intros Hread. unfold handleNotificationClick. by rewrite Hread.
Qed.

Lemma click_on_read_notification_is_noop_witness :
  handleNotificationClick FeedExample.mark FeedExample.read_one
    FeedExample.feed = FeedExample.feed
  ∧ length (unreadNotifications (Some "u1")
              (Feed.notifications
                 (handleNotificationClick FeedExample.mark
                    FeedExample.read_one FeedExample.feed)))
    = length (unreadNotifications (Some "u1")
                (Feed.notifications FeedExample.feed)).
Proof.
  apply (click_on_read_notification_is_noop FeedExample.mark (Some "u1")
           FeedExample.read_one FeedExample.feed).
  reflexivity.
Defined.

(** The unread one, for contrast, is handed to the hook. *)
Example click_on_unread_notification :
  Feed.marked
    (handleNotificationClick FeedExample.mark FeedExample.unread_one
       FeedExample.feed) = ["n2"]
  ∧ length (unreadNotifications (Some "u1")
              (Feed.notifications
                 (handleNotificationClick FeedExample.mark
                    FeedExample.unread_one FeedExample.feed))) = 0.
Proof. split; reflexivity. Qed.

Lemma is_approval_intro (n : Notification.t) :
  Notification.type n = "broadcast" →
  Notification.data n ≫= NotificationData.icon = Some "check-circle" →
  is_approval n = true.
Proof.
  intros Htype Hicon. unfold is_approval. rewrite Htype.
  destruct (Notification.data n) as [[[i|]]|]; simpl in *; try done.
  by injection Hicon as ->.
Qed.

(** C10: a broadcast whose [data.icon] is ['check-circle'] is shown in
    green with the check-circle icon whatever its priority; any other
    notification of high priority is red and of medium priority yellow
    whatever its type; and with any other priority the colour is the
    one of the type alone. *)
Theorem approval_override_takes_precedence (n : Notification.t) :
  (Notification.type n = "broadcast" →
   Notification.data n ≫= NotificationData.icon = Some "check-circle" →
   getNotificationColorForData n = "text-green-600 bg-green-100"
   ∧ getNotificationIconForData n = faCheckCircle)
  ∧ (is_approval n = false → Notification.priority n = "high" →
     getNotificationColorForData n = "text-red-600 bg-red-100")
  ∧ (is_approval n = false → Notification.priority n = "medium" →
     getNotificationColorForData n = "text-yellow-600 bg-yellow-100")
  ∧ (is_approval n = false → Notification.priority n ≠ "high" →
     Notification.priority n ≠ "medium" →
     getNotificationColorForData n
     = getNotificationColor (Notification.type n) "low").
Proof.
  unfold getNotificationColorForData, getNotificationIconForData.
  split; [|split; [|split]].
  - intros Htype Hicon. by rewrite (is_approval_intro n Htype Hicon).
  - by intros -> ->.
  - by intros -> ->.
  - intros -> Hh Hm. unfold getNotificationColor.
    apply String.eqb_neq in Hh, Hm. by rewrite Hh, Hm.
Qed.

Lemma approval_override_takes_precedence_witness :
  getNotificationColorForData FeedExample.read_one
  = "text-green-600 bg-green-100"
  ∧ getNotificationIconForData FeedExample.read_one = faCheckCircle.
Proof.
  apply (proj1 (approval_override_takes_precedence FeedExample.read_one));
    reflexivity.
Defined.

(** * Further properties of the two components *)

(** ** The catalogue assembler *)

Lemma assembled_subject_inv userAccess userRequests subjectsData lessonsData
    videosData (s : Subject.t) :
  s ∈ organizedSubjects userAccess userRequests subjectsData lessonsData
        videosData →
  ∃ row, row ∈ default (read_as_row <$> getDefaultSubjects) subjectsData
         ∧ s = assemble_subject userAccess userRequests lessonsData
                 videosData row.
Proof.
  unfold organizedSubjects. intros Hs.
  apply list_elem_of_fmap in Hs as (row & -> & Hrow). eauto.
Qed.

(** X1: a lesson listed under a subject of the catalogue comes from a
    fetched lesson row whose [subject_id] is that subject's identifier,
    and carries that identifier as its [subjectId]; a row that names no
    fetched subject is therefore listed nowhere. *)
Theorem lessons_listed_under_their_subject
    (userAccess : gset string) (userRequests : gmap string string)
    subjectsData lessonsData videosData (s : Subject.t) (l : Lesson.t) :
  s ∈ organizedSubjects userAccess userRequests subjectsData lessonsData
        videosData →
  l ∈ Subject.lessons s →
  Lesson.subjectId l = Subject.id s
  ∧ ∃ row, row ∈ default [] lessonsData
           ∧ LessonRow.subject_id row = Subject.id s
           ∧ LessonRow.id row = Lesson.id l
           ∧ LessonRow.title row = Lesson.title l.
Proof.
  intros Hs Hl.
  apply assembled_subject_inv in Hs as (srow & _ & ->). simpl in *.
  apply list_elem_of_fmap in Hl as (row & -> & Hin).
  apply list_elem_of_filter in Hin as [Hsub Hin]. simpl.
  split; [done|]. by exists row.
Qed.

Lemma lessons_listed_under_their_subject_witness :
  Lesson.subjectId (Example.the_lesson ∅ ∅) = "s1"
  ∧ ∃ row, row ∈ [MoreScenarios.orphan; Example.lesson]
           ∧ LessonRow.subject_id row = "s1"
           ∧ LessonRow.id row = "l1"
           ∧ LessonRow.title row = "Kinematics".
Proof.
  apply (lessons_listed_under_their_subject ∅ ∅ (Some [Example.subject])
           (Some [MoreScenarios.orphan; Example.lesson])
           (Some Example.videos) (Example.the_subject ∅ ∅)
           (Example.the_lesson ∅ ∅)).
  - apply list_elem_of_here.
  - apply list_elem_of_here.
Defined.

(** X2: the counts of the catalogue are the lengths of the lists beside
    them: [lessonCount] of every subject, [videoCount] of every lesson
    (the count is taken before the sort, which keeps the length). *)
Theorem counts_are_list_lengths
    (userAccess : gset string) (userRequests : gmap string string)
    subjectsData lessonsData videosData (s : Subject.t) :
  s ∈ organizedSubjects userAccess userRequests subjectsData lessonsData
        videosData →
  Subject.lessonCount s = length (Subject.lessons s)
  ∧ ∀ l, l ∈ Subject.lessons s →
         Lesson.videoCount l = length (Lesson.videos l).
Proof.
  intros Hs. split.
  - by apply assembled_subject_inv in Hs as (srow & _ & ->).
  - intros l Hl.
    destruct (assembled_lesson_inv _ _ _ _ _ _ _ Hs Hl)
      as (sid & row & _ & ->).
    simpl. by rewrite sort_length.
Qed.

Lemma counts_are_list_lengths_witness :
  Subject.lessonCount (Example.the_subject ∅ ∅)
  = length (Subject.lessons (Example.the_subject ∅ ∅))
  ∧ ∀ l, l ∈ Subject.lessons (Example.the_subject ∅ ∅) →
         Lesson.videoCount l = length (Lesson.videos l).
Proof.
  apply (counts_are_list_lengths ∅ ∅ (Some [Example.subject])
           (Some [Example.lesson]) (Some Example.videos)).
  apply list_elem_of_here.
Defined.

Lemma elem_of_lessonVideos subject_id lesson_id videosData
    (v : LessonVideo.t) :
  v ∈ lessonVideos subject_id lesson_id videosData →
  ∃ index row,
    row ∈ default [] videosData ∧ VideoRow.lesson_id row = lesson_id
    ∧ v = assemble_video subject_id lesson_id index row.
Proof.
  unfold lessonVideos. intros Hv.
  apply list_elem_of_lookup in Hv as [i Hi].
  rewrite list_lookup_imap in Hi.
  destruct (filter _ _ !! i) as [row|] eqn:Hrow; simplify_eq/=.
  apply list_elem_of_lookup_2, list_elem_of_filter in Hrow as [? ?].
  eauto.
Qed.

(** X3: every video of a lesson of the catalogue comes from a fetched
    video row whose [lesson_id] is that lesson's identifier, and carries
    the identifiers of the lesson and of its subject; videos of other
    lessons, or of no lesson, are never listed. *)
Theorem videos_listed_under_their_lesson
    (userAccess : gset string) (userRequests : gmap string string)
    subjectsData lessonsData videosData (s : Subject.t) (l : Lesson.t)
    (v : LessonVideo.t) :
  s ∈ organizedSubjects userAccess userRequests subjectsData lessonsData
        videosData →
  l ∈ Subject.lessons s →
  v ∈ Lesson.videos l →
  LessonVideo.lessonId v = Lesson.id l
  ∧ LessonVideo.subjectId v = Subject.id s
  ∧ ∃ row, row ∈ default [] videosData
           ∧ VideoRow.lesson_id row = Lesson.id l
           ∧ VideoRow.id row = LessonVideo.id v.
Proof.
  intros Hs Hl Hv.
  apply assembled_subject_inv in Hs as (srow & _ & ->). simpl in *.
  apply list_elem_of_fmap in Hl as (row & -> & _). simpl in *.
  rewrite sort_perm in Hv.
  apply elem_of_lessonVideos in Hv as (i & vrow & Hin & Hid & ->).
  simpl. repeat split. by exists vrow.
Qed.

Lemma videos_listed_under_their_lesson_witness :
  LessonVideo.lessonId
    (assemble_video "s1" "l1" 1 (Example.video "second" None)) = "l1"
  ∧ LessonVideo.subjectId
      (assemble_video "s1" "l1" 1 (Example.video "second" None)) = "s1"
  ∧ ∃ row, row ∈ Example.videos ∧ VideoRow.lesson_id row = "l1"
           ∧ VideoRow.id row = "second".
Proof.
  apply (videos_listed_under_their_lesson ∅ ∅ (Some [Example.subject])
           (Some [Example.lesson]) (Some Example.videos)
           (Example.the_subject ∅ ∅) (Example.the_lesson ∅ ∅)
           (assemble_video "s1" "l1" 1 (Example.video "second" None))).
  - apply list_elem_of_here.
  - apply list_elem_of_here.
  - apply list_elem_of_here.
Defined.

(** X4: in every lesson of the catalogue the videos stand in ascending
    order of the position the view model stores, and they are the
    lesson's mapped videos, rearranged. *)
Theorem catalogue_videos_ascending
    (userAccess : gset string) (userRequests : gmap string string)
    subjectsData lessonsData videosData (s : Subject.t) (l : Lesson.t) :
  s ∈ organizedSubjects userAccess userRequests subjectsData lessonsData
        videosData →
  l ∈ Subject.lessons s →
  Sorted (λ a b, (LessonVideo.position a ≤ LessonVideo.position b)%Z)
    (Lesson.videos l)
  ∧ Lesson.videos l
      ≡ₚ lessonVideos (Lesson.subjectId l) (Lesson.id l) videosData.
Proof.
  intros Hs Hl.
  destruct (assembled_lesson_inv _ _ _ _ _ _ _ Hs Hl) as (sid & row & _ & ->).
  destruct (assembled_videos_sorted userAccess userRequests videosData sid
              row) as (Hperm & Hsorted & _).
  by split.
Qed.

Lemma catalogue_videos_ascending_witness :
  Sorted (λ a b, (LessonVideo.position a ≤ LessonVideo.position b)%Z)
    (Lesson.videos (Example.the_lesson ∅ ∅))
  ∧ Lesson.videos (Example.the_lesson ∅ ∅)
      ≡ₚ lessonVideos "s1" "l1" (Some Example.videos).
Proof.
  apply (catalogue_videos_ascending ∅ ∅ (Some [Example.subject])
           (Some [Example.lesson]) (Some Example.videos)
           (Example.the_subject ∅ ∅) (Example.the_lesson ∅ ∅)).
  - apply list_elem_of_here.
  - apply list_elem_of_here.
Defined.

Lemma positions_kept subject_id lesson_id (g : nat → nat)
    (rows : list VideoRow.t) :
  Forall (λ row, ∃ n, VideoRow.position row = Some n ∧ n ≠ 0%Z) rows →
  LessonVideo.position
    <$> imap (λ i, assemble_video subject_id lesson_id (g i)) rows
  = omap VideoRow.position rows.
Proof.
  intros Hrows. revert g.
  induction Hrows as [|row rows (n & Hn & Hn0) _ IH]; intros g; [done|].
  simpl. rewrite Hn. simpl.
  destruct (Z.eqb_spec n 0) as [|_]; [done|].
  f_equal. apply (IH (g ∘ S)).
Qed.

(** X5: when every video row of a lesson has a position that is present
    and not zero, the positions stored for the lesson's videos are the
    rows' own positions, in ascending order: the index is not used. *)
Theorem present_positions_are_kept
    (userAccess : gset string) (userRequests : gmap string string)
    videosData (subject_id : string) (lesson : LessonRow.t) :
  (∀ row, row ∈ default [] videosData →
          VideoRow.lesson_id row = LessonRow.id lesson →
          ∃ n, VideoRow.position row = Some n ∧ n ≠ 0%Z) →
  let videos :=
    Lesson.videos
      (assemble_lesson userAccess userRequests videosData subject_id lesson) in
  LessonVideo.position <$> videos
    ≡ₚ omap VideoRow.position
         (filter (λ row, VideoRow.lesson_id row = LessonRow.id lesson)
            (default [] videosData))
  ∧ Sorted Z.le (LessonVideo.position <$> videos).
Proof.
  intros Hrows videos. split.
  - unfold videos. simpl. rewrite sort_perm. unfold lessonVideos.
    rewrite <- (positions_kept subject_id (LessonRow.id lesson) id); [done|].
    apply Forall_forall. intros row Hrow.
    apply list_elem_of_filter in Hrow as [? ?]. by apply Hrows.
  - eapply Sorted_fmap;
      [|apply (assembled_videos_sorted userAccess userRequests videosData
                 subject_id lesson)].
    done.
Qed.

Lemma present_positions_are_kept_witness :
  LessonVideo.position
    <$> Lesson.videos
          (assemble_lesson ∅ ∅ (Some MoreScenarios.positioned_videos) "s1"
             Example.lesson)
    ≡ₚ [3; 1; 2]%Z
  ∧ Sorted Z.le
      (LessonVideo.position
         <$> Lesson.videos
               (assemble_lesson ∅ ∅ (Some MoreScenarios.positioned_videos)
                  "s1" Example.lesson)).
Proof.
  apply (present_positions_are_kept ∅ ∅
           (Some MoreScenarios.positioned_videos) "s1" Example.lesson).
  intros row Hrow _. simpl in Hrow.
  repeat (apply elem_of_cons in Hrow as [->|Hrow];
          [eexists; split; [reflexivity|discriminate]|]).
  by apply elem_of_nil in Hrow.
Defined.

(** X6: when the subject query answers without error and without data,
    the catalogue is built from the built-in subjects through the same
    mapping as fetched rows: the identifiers are those of the fallback,
    every [imageUrl] is lost (the mapping reads [image_url], which the
    built-in subjects do not have), and lessons that name a built-in
    subject are listed under it. *)
Theorem missing_subject_data_maps_the_fallback
    (userAccess : gset string) (userRequests : gmap string string)
    lessonsData videosData :
  let catalogue :=
    organizedSubjects userAccess userRequests None lessonsData videosData in
  Subject.id <$> catalogue = Subject.id <$> getDefaultSubjects
  ∧ Subject.name <$> catalogue = Subject.name <$> getDefaultSubjects
  ∧ Forall (λ s, Subject.imageUrl s = None) catalogue
  ∧ Forall (λ s, is_Some (Subject.imageUrl s)) getDefaultSubjects
  ∧ Forall (λ s, Lesson.id <$> Subject.lessons s
                 = LessonRow.id
                     <$> filter (λ row, LessonRow.subject_id row = Subject.id s)
                           (default [] lessonsData)) catalogue.
Proof.
  simpl. split; [done|]. split; [done|].
  split; [by repeat constructor|]. split; [by repeat constructor|].
  repeat constructor; simpl; by rewrite <- list_fmap_compose.
Qed.

(** X7: for a signed-in user [loadSubjects] always ends with the loading
    flag down, whatever the three queries answer, so the loader is never
    left on the screen. *)
Theorem loadSubjects_ends_loading (user : option string)
    (userAccess : gset string) (userRequests : gmap string string)
    (b : Backend.t) (p : Page.t) :
  is_Some (user_id user) →
  Page.loading (loadSubjects user userAccess userRequests b p) = false.
Proof.
  intros [uid Hu]. unfold loadSubjects. rewrite Hu.
  destruct (Backend.subjects b) as [? [?|]|?]; try done.
  destruct (Backend.subject_lessons b) as [? [?|]|?]; try done;
    destruct (Backend.lesson_videos b) as [? [?|]|?]; done.
Qed.

Lemma loadSubjects_ends_loading_witness :
  Page.loading (loadSubjects (Some "u1") ∅ ∅ Scenario.rejecting Page.initial)
  = false
  ∧ Page.loading (loadSubjects (Some "u1") ∅ ∅ Scenario.healthy Page.initial)
    = false.
Proof.
  split.
  - apply (loadSubjects_ends_loading (Some "u1") ∅ ∅ Scenario.rejecting
             Page.initial).
    exists "u1". reflexivity.
  - apply (loadSubjects_ends_loading (Some "u1") ∅ ∅ Scenario.healthy
             Page.initial).
    exists "u1". reflexivity.
Defined.

(** X8: when the lessons query answers with an error and no data (and
    the videos query does not reject), the catalogue is not replaced by
    the fallback: it has the fetched subjects, each with no lessons. *)
Theorem lessons_error_gives_subjects_without_lessons
    (user : option string) (userAccess : gset string)
    (userRequests : gmap string string) (b : Backend.t) (p : Page.t)
    (rows : list SubjectRow.t) (e : string) videosData videosError :
  is_Some (user_id user) →
  Backend.subjects b = Js.Resolved (Some rows) None →
  Backend.subject_lessons b = Js.Resolved None (Some e) →
  Backend.lesson_videos b = Js.Resolved videosData videosError →
  Page.subjects (loadSubjects user userAccess userRequests b p)
  = (λ row, Subject.mk (SubjectRow.id row) (SubjectRow.name row)
              (SubjectRow.description row) (SubjectRow.icon row)
              (SubjectRow.color row) (SubjectRow.image_url row) 0 [])
      <$> rows.
Proof.
  intros [uid Hu] Hs Hl Hv. unfold loadSubjects.
  rewrite Hu, Hs, Hl, Hv. simpl. unfold organizedSubjects. simpl.
  apply list_fmap_ext. intros _ row _. reflexivity.
Qed.

Lemma lessons_error_gives_subjects_without_lessons_witness :
  Page.subjects
    (loadSubjects (Some "u1") {["l1"]} ∅ MoreScenarios.lessons_error
       Page.initial)
  = [Subject.mk "s1" "Physics" "Mechanics and waves" "P" "from-red-500"
       None 0 []].
Proof.
  apply (lessons_error_gives_subjects_without_lessons (Some "u1") {["l1"]} ∅
           MoreScenarios.lessons_error Page.initial [Example.subject]
           "permission denied" (Some Example.videos) None).
  - exists "u1". reflexivity.
  - reflexivity.
  - reflexivity.
  - reflexivity.
Defined.

(** X9: without a signed-in user (no user, or an empty identifier) none
    of the loaders, triggers and the submission does anything: the page,
    trace included, is what it was, so no query and no insert is sent. *)
Theorem signed_out_does_nothing (user : option string)
    (userAccess : gset string) (userRequests : gmap string string)
    (message visibilityState : string) (hidden : bool)
    (b : Backend.t) (p : Page.t) :
  user_id user = None →
  loadUserAccess user b p = p
  ∧ loadUserRequests user b p = p
  ∧ loadSubjects user userAccess userRequests b p = p
  ∧ initialDataLoad user b p = p
  ∧ accessDataChanged user p = (p, [])
  ∧ refreshAccessData user b p = p
  ∧ handleVisibilityChange user hidden visibilityState b p = p
  ∧ periodicRefresh user hidden b p = p
  ∧ submitLessonRequest user message b p = p.
Proof.
  intros Hu.
  unfold handleVisibilityChange, periodicRefresh, refreshAccessData,
    initialDataLoad, accessDataChanged, submitLessonRequest, loadSubjects,
    loadUserAccess, loadUserRequests.
  rewrite !Hu.
  assert (bool_decide (is_Some (@None string)) = false) as ->
    by (apply bool_decide_eq_false; by intros [? ?]).
  rewrite !andb_false_r. done.
Qed.

Lemma signed_out_does_nothing_witness :
  loadUserAccess (Some "") Scenario.healthy Scenario.loaded = Scenario.loaded
  ∧ submitLessonRequest None "please" Scenario.healthy SubmitExample.page
    = SubmitExample.page.
Proof.
  split.
  - apply (signed_out_does_nothing (Some "") ∅ ∅ "" "visible" false
             Scenario.healthy Scenario.loaded eq_refl).
  - apply (signed_out_does_nothing None ∅ ∅ "please" "visible" false
             Scenario.healthy SubmitExample.page eq_refl).
Defined.

(** ** The access snapshot store *)

Lemma user_id_Some (user : option string) (uid : string) :
  user_id user = Some uid → user = Some uid ∧ Js.truthy uid = true.
Proof.
  unfold user_id. destruct user as [i|]; [|done].
  destruct (Js.truthy i) eqn:Ht; [|done]. by intros [= ->].
Qed.

(** X10: after a successful fetch the access set holds exactly the
    lesson identifiers of the fetched rows; what it held before is
    gone (the set is replaced, not merged). *)
Theorem loaded_access_set_is_the_fetched_rows
    (user : option string) (uid : string) (b : Backend.t) (p : Page.t)
    (accessData : option (list AccessRow.t)) (id : string) :
  user_id user = Some uid →
  Backend.user_lesson_access b uid = Js.Resolved accessData None →
  id ∈ Page.userAccess (loadUserAccess user b p)
  ↔ ∃ row, row ∈ default [] accessData ∧ AccessRow.lesson_id row = id.
Proof.
  intros Hu Hb. unfold loadUserAccess. rewrite Hu, Hb. simpl.
  unfold Js.new_Set. rewrite elem_of_list_to_set, list_elem_of_fmap.
  split; intros (row & ? & ?); by exists row.
Qed.

(** The page held "l1"; the backend now grants "l2" only. *)
Lemma loaded_access_set_is_the_fetched_rows_witness :
  "l1" ∈ Page.userAccess
           (loadUserAccess (Some "u1") Scenario.healthy Scenario.loaded)
  ↔ ∃ row, row ∈ [AccessRow.mk "l2"] ∧ AccessRow.lesson_id row = "l1".
Proof.
  apply (loaded_access_set_is_the_fetched_rows (Some "u1") "u1"
           Scenario.healthy Scenario.loaded (Some [AccessRow.mk "l2"]) "l1");
    reflexivity.
Defined.

Lemma new_Map_snoc (pairs : list (string * string)) k v :
  Js.new_Map (pairs ++ [(k, v)]) = <[k := v]> (Js.new_Map pairs).
Proof. unfold Js.new_Map. by rewrite foldl_snoc. Qed.

Lemma new_Map_lookup_None (pairs : list (string * string)) k :
  Js.new_Map pairs !! k = None ↔ ∀ kv, kv ∈ pairs → kv.1 ≠ k.
Proof.
  induction pairs as [|[k' v'] pairs IH] using rev_ind.
  - split; [|done]. intros _ kv Hkv. by apply elem_of_nil in Hkv.
  - rewrite new_Map_snoc, lookup_insert_None, IH. split.
    + intros [H Hne] kv Hkv. apply elem_of_app in Hkv as [Hkv|Hkv]; [eauto|].
      apply list_elem_of_singleton in Hkv as ->. done.
    + intros H. split.
      * intros kv Hkv. apply H, elem_of_app. by left.
      * apply (H (k', v')), elem_of_app. right. by apply list_elem_of_singleton.
Qed.

Lemma new_Map_lookup_last (l1 l2 : list (string * string)) k v :
  (∀ kv, kv ∈ l2 → kv.1 ≠ k) →
  Js.new_Map (l1 ++ (k, v) :: l2) !! k = Some v.
Proof.
  induction l2 as [|[k' v'] l2 IH] using rev_ind; intros Hl2.
  - by rewrite new_Map_snoc, lookup_insert_eq.
  - rewrite app_comm_cons, app_assoc, new_Map_snoc.
    rewrite lookup_insert_ne.
    + apply IH. intros kv Hkv. apply Hl2, elem_of_app. by left.
    + apply (Hl2 (k', v')), elem_of_app. right.
      by apply list_elem_of_singleton.
Qed.

(** X11: after a successful fetch the request map holds, for every
    lesson, the status of the last fetched row of that lesson (a later
    row replaces an earlier one), and no entry for a lesson without a
    row. *)
Theorem loaded_request_map_keeps_last_row
    (user : option string) (uid : string) (b : Backend.t) (p : Page.t)
    (requestsData : option (list RequestRow.t)) :
  user_id user = Some uid →
  Backend.lesson_requests b uid = Js.Resolved requestsData None →
  (∀ rows1 r rows2,
     default [] requestsData = rows1 ++ r :: rows2 →
     (∀ r', r' ∈ rows2 → RequestRow.lesson_id r' ≠ RequestRow.lesson_id r) →
     Page.userRequests (loadUserRequests user b p) !! RequestRow.lesson_id r
     = Some (RequestRow.status r))
  ∧ (∀ id,
       Page.userRequests (loadUserRequests user b p) !! id = None
       ↔ ∀ r, r ∈ default [] requestsData → RequestRow.lesson_id r ≠ id).
Proof.
  intros Hu Hb. unfold loadUserRequests. rewrite Hu, Hb. simpl. split.
  - intros rows1 r rows2 -> Hlast.
    rewrite fmap_app, fmap_cons. apply new_Map_lookup_last.
    intros kv Hkv. apply list_elem_of_fmap in Hkv as (r' & -> & Hr').
    by apply Hlast.
  - intros id. rewrite new_Map_lookup_None. split.
    + intros H r Hr.
      apply (H (RequestRow.lesson_id r, RequestRow.status r)).
      apply list_elem_of_fmap. by exists r.
    + intros H kv Hkv. apply list_elem_of_fmap in Hkv as (r & -> & Hr).
      by apply H.
Qed.

Lemma loaded_request_map_keeps_last_row_witness :
  Page.userRequests
    (loadUserRequests (Some "u1") MoreScenarios.two_requests Scenario.loaded)
    !! "l1" = Some "pending".
Proof.
  apply (proj1 (loaded_request_map_keeps_last_row (Some "u1") "u1"
                  MoreScenarios.two_requests Scenario.loaded
                  (Some [RequestRow.mk "l1" "rejected";
                         RequestRow.mk "l4" "approved";
                         RequestRow.mk "l1" "pending"]) eq_refl eq_refl)
           [RequestRow.mk "l1" "rejected"; RequestRow.mk "l4" "approved"]
           (RequestRow.mk "l1" "pending") [] eq_refl).
  intros r' Hr'. by apply elem_of_nil in Hr'.
Defined.

Lemma loadUserAccess_other_fields user b p :
  Page.userRequests (loadUserAccess user b p) = Page.userRequests p
  ∧ Page.subjects (loadUserAccess user b p) = Page.subjects p.
Proof.
  unfold loadUserAccess. destruct (user_id user) as [uid|]; [|done].
  by destruct (Backend.user_lesson_access b uid) as [? [?|]|?].
Qed.

Lemma loadUserRequests_other_fields user b p :
  Page.userAccess (loadUserRequests user b p) = Page.userAccess p
  ∧ Page.subjects (loadUserRequests user b p) = Page.subjects p.
Proof.
  unfold loadUserRequests. destruct (user_id user) as [uid|]; [|done].
  by destruct (Backend.lesson_requests b uid) as [? [?|]|?].
Qed.

Lemma loadUserAccess_idem user b p q :
  Page.userAccess q = Page.userAccess (loadUserAccess user b p) →
  Page.userAccess (loadUserAccess user b q)
  = Page.userAccess (loadUserAccess user b p).
Proof.
  unfold loadUserAccess. destruct (user_id user) as [uid|]; [|done].
  by destruct (Backend.user_lesson_access b uid) as [? [?|]|?].
Qed.

Lemma loadUserRequests_idem user b p q :
  Page.userRequests q = Page.userRequests (loadUserRequests user b p) →
  Page.userRequests (loadUserRequests user b q)
  = Page.userRequests (loadUserRequests user b p).
Proof.
  unfold loadUserRequests. destruct (user_id user) as [uid|]; [|done].
  by destruct (Backend.lesson_requests b uid) as [? [?|]|?].
Qed.

(** X12: refreshing twice against the same backend answers gives the
    snapshot of refreshing once, whether the answers are data, errors or
    rejections; and a refresh by itself never touches the assembled
    catalogue. *)
Theorem refresh_is_idempotent_on_the_snapshot
    (user : option string) (b : Backend.t) (p : Page.t) :
  Page.userAccess (refreshAccessData user b (refreshAccessData user b p))
  = Page.userAccess (refreshAccessData user b p)
  ∧ Page.userRequests (refreshAccessData user b (refreshAccessData user b p))
    = Page.userRequests (refreshAccessData user b p)
  ∧ Page.subjects (refreshAccessData user b p) = Page.subjects p.
Proof.
  unfold refreshAccessData. repeat split.
  - rewrite !(proj1 (loadUserRequests_other_fields _ _ _)).
    apply loadUserAccess_idem.
    by rewrite (proj1 (loadUserRequests_other_fields _ _ _)).
  - apply loadUserRequests_idem.
    by rewrite (proj1 (loadUserAccess_other_fields _ _ _)).
  - rewrite (proj2 (loadUserRequests_other_fields _ _ _)).
    apply loadUserAccess_other_fields.
Qed.

(** ** The refresh triggers *)

(** X13: for a signed-in user, each of the three later triggers (the
    access-update event naming this user, the page becoming visible, a
    tick of the interval while visible) queries each of the two
    per-user tables exactly once. *)
Theorem later_triggers_fetch_each_half_once
    (user : option string) (uid : string) (b : Backend.t) (p : Page.t)
    (table : string) :
  user_id user = Some uid →
  table = "user_lesson_access" ∨ table = "lesson_requests" →
  fetches table (Page.trace (handleLessonAccessUpdate user uid b p))
  = fetches table (Page.trace p) + 1
  ∧ fetches table
      (Page.trace (handleVisibilityChange user false "visible" b p))
    = fetches table (Page.trace p) + 1
  ∧ fetches table (Page.trace (periodicRefresh user false b p))
    = fetches table (Page.trace p) + 1.
Proof.
  intros Hu Htable. destruct (user_id_Some _ _ Hu) as [-> Ht].
  unfold handleLessonAccessUpdate, handleVisibilityChange, periodicRefresh.
  rewrite Hu, bool_decide_eq_true_2 by done.
  rewrite bool_decide_eq_true_2 by eauto. simpl.
  unfold refreshAccessData.
  rewrite loadUserRequests_fetches, loadUserAccess_fetches by done.
  destruct Htable as [-> | ->]; simpl; lia.
Qed.

Lemma later_triggers_fetch_each_half_once_witness :
  fetches "user_lesson_access"
    (Page.trace (periodicRefresh (Some "u1") false Scenario.erroring
                   Page.initial)) = 1.
Proof.
  apply (later_triggers_fetch_each_half_once (Some "u1") "u1"
           Scenario.erroring Page.initial "user_lesson_access" eq_refl).
  by left.
Defined.

(** X14: the triggers that are suppressed leave the page as it is and
    query nothing: a tick or a visibility change while the document is
    hidden, a visibility change to a state other than ['visible'], and
    an access-update event that names another user. *)
Theorem suppressed_triggers_do_nothing
    (user : option string) (event_userId visibilityState : string)
    (hidden : bool) (b : Backend.t) (p : Page.t) :
  periodicRefresh user true b p = p
  ∧ handleVisibilityChange user true visibilityState b p = p
  ∧ (visibilityState ≠ "visible" →
     handleVisibilityChange user hidden visibilityState b p = p)
  ∧ (Some event_userId ≠ user →
     handleLessonAccessUpdate user event_userId b p = p).
Proof.
  unfold periodicRefresh, handleVisibilityChange, handleLessonAccessUpdate.
  repeat split; try done.
  - intros Hv. apply String.eqb_neq in Hv. by rewrite Hv, andb_false_r.
  - intros Hne. by rewrite bool_decide_eq_false_2.
Qed.

Lemma suppressed_triggers_do_nothing_witness :
  handleVisibilityChange (Some "u1") false "prerender" Scenario.healthy
    Scenario.loaded = Scenario.loaded
  ∧ handleLessonAccessUpdate (Some "u1") "u2" Scenario.healthy Scenario.loaded
    = Scenario.loaded.
Proof.
  split.
  - apply (suppressed_triggers_do_nothing (Some "u1") "u2" "prerender" false
             Scenario.healthy Scenario.loaded). discriminate.
  - apply (suppressed_triggers_do_nothing (Some "u1") "u2" "prerender" false
             Scenario.healthy Scenario.loaded). discriminate.
Defined.

(** ** The request workflow *)

(** X15: a submission whose insert fails still closes the request form;
    the request map and the catalogue are what they were, and the
    outside world has seen one insert, one console error and one error
    toast, in this order. *)
Theorem failed_submission_still_closes_the_form
    (user : option string) (uid message : string) (b : Backend.t)
    (p : Page.t) (X : Lesson.t) :
  user_id user = Some uid →
  Page.requestingLesson p = Some X →
  insert_fails b (request_row uid X message) →
  Page.showRequestModal (modal_handleSubmit user message b p) = false
  ∧ Page.requestingLesson (modal_handleSubmit user message b p) = None
  ∧ Page.userRequests (modal_handleSubmit user message b p)
    = Page.userRequests p
  ∧ Page.subjects (modal_handleSubmit user message b p) = Page.subjects p
  ∧ Page.trace (modal_handleSubmit user message b p)
    = Page.trace p
      ++ [ InsertInto "lesson_requests" (request_row uid X message);
           ConsoleError "Error submitting request:";
           ToastError "Failed to submit request" ].
Proof.
  intros Hu HX. unfold modal_handleSubmit, submitLessonRequest, insert_fails.
  rewrite Hu, HX.
  destruct (Backend.insert_lesson_requests b (request_row uid X message))
    as [d [e|]|r]; try done; intros _; simpl;
    by rewrite <- !app_assoc.
Qed.

Lemma failed_submission_still_closes_the_form_witness :
  Page.showRequestModal
    (modal_handleSubmit (Some "u1") "" Scenario.rejecting SubmitExample.page)
  = false.
Proof.
  apply (failed_submission_still_closes_the_form (Some "u1") "u1" ""
           Scenario.rejecting SubmitExample.page SubmitExample.X
           eq_refl eq_refl).
  exact I.
Defined.

Lemma toasts_snoc (tr : list Effect) (e : Effect) :
  toasts (tr ++ [e]) = toasts tr ++ (if is_toast e then [e] else []).
Proof.
  unfold toasts. rewrite filter_app. f_equal.
  rewrite filter_cons, filter_nil. destruct (is_toast e); by case_decide.
Qed.

Lemma inserts_snoc (tr : list Effect) (e : Effect) :
  inserts (tr ++ [e]) = inserts tr ++ (if is_insert e then [e] else []).
Proof.
  unfold inserts. rewrite filter_app. f_equal.
  rewrite filter_cons, filter_nil. destruct (is_insert e); by case_decide.
Qed.

(** [loadSubjects] shows no toast and inserts nothing. *)
Lemma loadSubjects_quiet user userAccess userRequests b p :
  toasts (Page.trace (loadSubjects user userAccess userRequests b p))
  = toasts (Page.trace p)
  ∧ inserts (Page.trace (loadSubjects user userAccess userRequests b p))
    = inserts (Page.trace p).
Proof.
  unfold loadSubjects, loadSubjects_catch, log_if_error.
  destruct (user_id user); [|done].
  destruct (Backend.subjects b) as [? [?|]|?];
    [| destruct (Backend.subject_lessons b) as [? [?|]|?];
       destruct (Backend.lesson_videos b) as [? [?|]|?] |];
    simpl; rewrite ?toasts_snoc, ?inserts_snoc; simpl;
    by rewrite ?app_nil_r.
Qed.

(** X16: a submission by a signed-in user sends exactly one insert, the
    request row of the lesson with status ['pending'], and shows exactly
    one toast: the success toast when the insert succeeds, the error
    toast when it fails. *)
Theorem submission_sends_one_insert_and_one_toast
    (user : option string) (uid message : string) (b : Backend.t)
    (p : Page.t) (X : Lesson.t) :
  user_id user = Some uid →
  Page.requestingLesson p = Some X →
  inserts (Page.trace (submitLessonRequest user message b p))
  = inserts (Page.trace p)
    ++ [InsertInto "lesson_requests"
          (RequestInsert.mk uid (Lesson.id X) (Lesson.subjectId X)
             (if String.eqb message "" then None else Some message)
             "pending")]
  ∧ toasts (Page.trace (submitLessonRequest user message b p))
    = toasts (Page.trace p)
      ++ [match Backend.insert_lesson_requests b (request_row uid X message)
          with
          | Js.Resolved _ None =>
              ToastSuccess "Access request submitted successfully!"
          | _ => ToastError "Failed to submit request"
          end].
Proof.
  intros Hu HX. unfold submitLessonRequest. rewrite Hu, HX.
  assert (request_row uid X message
          = RequestInsert.mk uid (Lesson.id X) (Lesson.subjectId X)
              (if String.eqb message "" then None else Some message)
              "pending") as Hrow.
  { unfold request_row, Js.truthy. by destruct (String.eqb message ""). }
  rewrite <- Hrow.
  destruct (Backend.insert_lesson_requests b (request_row uid X message))
    as [d [e|]|r]; simpl;
    rewrite ?(proj1 (loadSubjects_quiet _ _ _ _ _)),
      ?(proj2 (loadSubjects_quiet _ _ _ _ _)); simpl;
    rewrite ?toasts_snoc, ?inserts_snoc; simpl;
    by rewrite ?app_nil_r.
Qed.

Lemma submission_sends_one_insert_and_one_toast_witness :
  toasts
    (Page.trace
       (submitLessonRequest (Some "u1") "" Scenario.healthy
          SubmitExample.page))
  = [ToastSuccess "Access request submitted successfully!"].
Proof.
  apply (proj2 (submission_sends_one_insert_and_one_toast (Some "u1") "u1" ""
                  Scenario.healthy SubmitExample.page SubmitExample.X
                  eq_refl eq_refl)).
Defined.

(** X17: what a card shows agrees with what a click on it does.  With
    the form closed, the badge reads "Rejected" or "Locked" exactly when
    a click opens the request form, exactly when the lock overlay reads
    "Request Access", exactly when the "Request Access" button is drawn;
    the badge reads "Owned" exactly when the lesson is unlocked, and then
    no overlay is drawn. *)
Theorem card_display_agrees_with_click (lesson : Lesson.t) (p : Page.t) :
  Page.showRequestModal p = false →
  (getStatusBadge lesson = BadgeRejected ∨ getStatusBadge lesson = BadgeLocked
   ↔ form_open_for lesson (lesson_card_onClick lesson p))
  ∧ (lock_overlay lesson = Some "Request Access"
     ↔ form_open_for lesson (lesson_card_onClick lesson p))
  ∧ (is_Some (request_button_onClick lesson p)
     ↔ form_open_for lesson (lesson_card_onClick lesson p))
  ∧ (getStatusBadge lesson = BadgeOwned ↔ Lesson.hasAccess lesson = true)
  ∧ (getStatusBadge lesson = BadgeOwned ↔ lock_overlay lesson = None).
Proof.
  intros Hclosed. rewrite lesson_card_onClick_opens by done.
  unfold getStatusBadge, lock_overlay, request_button_onClick, requestable.
  destruct (Lesson.hasAccess lesson);
    destruct (String.eqb (Lesson.requestStatus lesson) "pending");
    destruct (String.eqb (Lesson.requestStatus lesson) "rejected");
    simpl; repeat split; try done; try (intros [?|?]; done);
    try (intros [? ?]; done); eauto.
Qed.

Lemma card_display_agrees_with_click_witness :
  getStatusBadge ClickExample.approved_without_access = BadgeRejected
  ∨ getStatusBadge ClickExample.approved_without_access = BadgeLocked
  ↔ form_open_for ClickExample.approved_without_access
      (lesson_card_onClick ClickExample.approved_without_access Page.initial).
Proof.
  apply (card_display_agrees_with_click ClickExample.approved_without_access
           Page.initial eq_refl).
Defined.

(** X18: a click on a lesson card is local: it sends nothing to the
    backend and leaves snapshot and catalogue alone.  The card's loading
    line is on between the click and the timer, and off afterwards; the
    loading lines of other cards are not touched. *)
Theorem card_click_is_local (lesson : Lesson.t) (p : Page.t) :
  Page.trace (lesson_card_onClick lesson p) = Page.trace p
  ∧ Page.userAccess (lesson_card_onClick lesson p) = Page.userAccess p
  ∧ Page.userRequests (lesson_card_onClick lesson p) = Page.userRequests p
  ∧ Page.subjects (lesson_card_onClick lesson p) = Page.subjects p
  ∧ Lesson.id lesson
      ∈ Page.loadingContainers (handleContainerClick (Lesson.id lesson) p)
  ∧ Page.loadingContainers (lesson_card_onClick lesson p)
    = (if requestable lesson
       then Page.loadingContainers p ∖ {[Lesson.id lesson]}
       else Page.loadingContainers p).
Proof.
  unfold lesson_card_onClick, handleContainerClick_timeout,
    handleLessonClick, handleContainerClick.
  assert (Lesson.id lesson ∈ {[Lesson.id lesson]} ∪ Page.loadingContainers p)
    by (apply elem_of_union; left; by apply elem_of_singleton).
  destruct (requestable lesson); simpl; repeat split; try done.
  apply set_eq. intros x.
  rewrite !elem_of_difference, elem_of_union, elem_of_singleton. tauto.
Qed.

(** ** Notifications *)






(** A rejecting hook ends the loop: with the hook that fails on "n4" the
    notification "n2" is read, "n4" is not, and the error toast is shown;
    with the hook that rejects every call only "n2" is passed. *)
Example markAllAsRead_stops_at_rejection :
  Feed.marked
    (markAllAsRead MoreScenarios.mark_rejecting (Some "u1")
       MoreScenarios.mixed_feed) = ["n2"]
  ∧ Notification.id
      <$> unreadNotifications (Some "u1")
            (Feed.notifications
               (markAllAsRead MoreScenarios.mark_failing_on_n4 (Some "u1")
                  MoreScenarios.mixed_feed)) = ["n4"]
  ∧ Feed.trace
      (markAllAsRead MoreScenarios.mark_failing_on_n4 (Some "u1")
         MoreScenarios.mixed_feed)
    = [ConsoleError "Error marking all as read:";
       ToastError "Failed to mark all as read"].
Proof. repeat split. Qed.

Lemma marks_by_id_loop
    (markNotificationRead :
       string → list Notification.t → list Notification.t * bool)
    (l : list Notification.t) (f : Feed.t) :
  marks_by_id markNotificationRead →
  Feed.notifications (markAllAsRead_loop markNotificationRead l f).1
  = (λ n, if bool_decide (Notification.id n ∈ Notification.id <$> l)
          then set_read n else n) <$> Feed.notifications f.
Proof.
  intros Hmark. revert f. induction l as [|x l IH]; intros f.
  - simpl. symmetry. apply list_fmap_id.
  - cbn [markAllAsRead_loop]. unfold call_markNotificationRead at 1 2.
    rewrite Hmark. cbn [fst snd]. rewrite IH.
    cbn [Feed.notifications]. rewrite <- list_fmap_compose.
    apply list_fmap_ext. intros _ n _. cbn [compose].
    destruct (String.eqb_spec (Notification.id n) (Notification.id x))
      as [Heq|Hne].
    + rewrite (bool_decide_eq_true_2 (_ ∈ _ <$> _ :: _))
        by (rewrite fmap_cons, Heq; apply list_elem_of_here).
      by case_bool_decide.
    + rewrite fmap_cons. case_bool_decide as Hin.
      * rewrite bool_decide_eq_true_2; [done|]. by apply list_elem_of_further.
      * rewrite bool_decide_eq_false_2; [done|].
        intros [?|?]%elem_of_cons; done.
Qed.

(** X20: when the data hook marks the notifications of the identifier it
    is given and changes nothing else, "mark all as read" leaves the
    current user without unread notifications, and the user's
    notifications are the same ones in the same order. *)
Theorem markAllAsRead_leaves_no_unread
    (markNotificationRead :
       string → list Notification.t → list Notification.t * bool)
    (user : option string) (f : Feed.t) :
  marks_by_id markNotificationRead →
  unreadNotifications user
    (Feed.notifications (markAllAsRead markNotificationRead user f)) = []
  ∧ Notification.id
      <$> userNotifications user
            (Feed.notifications (markAllAsRead markNotificationRead user f))
    = Notification.id <$> userNotifications user (Feed.notifications f).
Proof.
  intros Hmark. unfold markAllAsRead.
  destruct (length (unreadNotifications user (Feed.notifications f)) =? 0)%nat
    eqn:Hlen.
  { apply Nat.eqb_eq, nil_length_inv in Hlen. by rewrite Hlen. }
  assert (Feed.notifications
            (Feed.setLoading false
               (if (markAllAsRead_loop markNotificationRead
                      (unreadNotifications user (Feed.notifications f))
                      (Feed.setLoading true f)).2
                then Feed.emit
                       (ToastSuccess "All notifications marked as read")
                       (markAllAsRead_loop markNotificationRead
                          (unreadNotifications user (Feed.notifications f))
                          (Feed.setLoading true f)).1
                else Feed.emit (ToastError "Failed to mark all as read")
                       (Feed.emit (ConsoleError "Error marking all as read:")
                          (markAllAsRead_loop markNotificationRead
                             (unreadNotifications user (Feed.notifications f))
                             (Feed.setLoading true f)).1)))
          = Feed.notifications
              (markAllAsRead_loop markNotificationRead
                 (unreadNotifications user (Feed.notifications f))
                 (Feed.setLoading true f)).1) as ->
    by (by destruct (markAllAsRead_loop _ _ _).2).
  rewrite (marks_by_id_loop _ _ _ Hmark). cbn [Feed.setLoading Feed.notifications].
  clear Hlen.
  set (ids := Notification.id
                <$> unreadNotifications user (Feed.notifications f)).
  assert (Hids : ∀ n, n ∈ Feed.notifications f →
                      Some (Notification.userId n) = user →
                      Notification.readStatus n = false →
                      Notification.id n ∈ ids).
  { intros n Hn Hu Hr. apply list_elem_of_fmap. exists n. split; [done|].
    unfold unreadNotifications, userNotifications.
    by rewrite !list_elem_of_filter. }
  split.
  - apply elem_of_nil_inv. intros n'.
    unfold unreadNotifications, userNotifications.
    rewrite !list_elem_of_filter, list_elem_of_fmap.
    intros (Hr & Hu & n & -> & Hn).
    case_bool_decide as Hin; simpl in *; [done|].
    apply Hin. by apply Hids.
  - unfold userNotifications.
    generalize (Feed.notifications f) as ns. clear Hids.
    induction ns as [|n ns IH]; [done|].
    rewrite fmap_cons, !filter_cons.
    assert (Notification.userId
              (if bool_decide (Notification.id n ∈ ids)
               then set_read n else n) = Notification.userId n) as Hu
      by (by case_bool_decide).
    assert (Notification.id
              (if bool_decide (Notification.id n ∈ ids)
               then set_read n else n) = Notification.id n) as Hi
      by (by case_bool_decide).
    rewrite Hu.
    destruct (decide (Some (Notification.userId n) = user)); [|done].
    by rewrite !fmap_cons, Hi, IH.
Qed.

Lemma markAllAsRead_leaves_no_unread_witness :
  unreadNotifications (Some "u1")
    (Feed.notifications
       (markAllAsRead FeedExample.mark (Some "u1") MoreScenarios.mixed_feed))
  = []
  ∧ Notification.id
      <$> userNotifications (Some "u1")
            (Feed.notifications
               (markAllAsRead FeedExample.mark (Some "u1")
                  MoreScenarios.mixed_feed))
    = Notification.id
        <$> userNotifications (Some "u1")
              (Feed.notifications MoreScenarios.mixed_feed).
Proof.
  apply (markAllAsRead_leaves_no_unread FeedExample.mark (Some "u1")
           MoreScenarios.mixed_feed).
  intros id ns. reflexivity.
Defined.

Lemma is_approval_spec (n : Notification.t) :
  is_approval n = true
  ↔ Notification.type n = "broadcast"
    ∧ Notification.data n ≫= NotificationData.icon = Some "check-circle".
Proof.
  split; [|intros [? ?]; by apply is_approval_intro].
  unfold is_approval. rewrite andb_true_iff, String.eqb_eq.
  intros [Htype Hicon]. split; [done|].
  destruct (Notification.data n) as [[[i|]]|]; simpl in *; try done.
  by apply String.eqb_eq in Hicon as ->.
Qed.

Lemma getNotificationIcon_not_check_circle (type : string) :
  getNotificationIcon type ≠ faCheckCircle.
Proof. unfold getNotificationIcon. by repeat case_match. Qed.

(** X21: the check-circle icon is shown for approval broadcasts and for
    nothing else; for a notification that is not a broadcast,
    [data.icon] is ignored and icon and colour are those of its type and
    priority. *)
Theorem check_circle_only_for_approval_broadcasts (n : Notification.t) :
  (getNotificationIconForData n = faCheckCircle
   ↔ Notification.type n = "broadcast"
     ∧ Notification.data n ≫= NotificationData.icon = Some "check-circle")
  ∧ (Notification.type n ≠ "broadcast" →
     getNotificationIconForData n = getNotificationIcon (Notification.type n)
     ∧ getNotificationColorForData n
       = getNotificationColor (Notification.type n)
           (Notification.priority n)).
Proof.
  rewrite <- is_approval_spec.
  unfold getNotificationIconForData, getNotificationColorForData. split.
  - destruct (is_approval n); [done|]. split; [|done].
    intros H. by apply getNotificationIcon_not_check_circle in H.
  - intros Hne. destruct (is_approval n) eqn:Ha; [|done].
    apply is_approval_spec in Ha as [? _]. done.
Qed.

Lemma check_circle_only_for_approval_broadcasts_witness :
  getNotificationIconForData FeedExample.unread_one = faExclamationCircle
  ∧ getNotificationColorForData FeedExample.unread_one
    = "text-yellow-600 bg-yellow-100".
Proof.
  apply (proj2 (check_circle_only_for_approval_broadcasts
                  FeedExample.unread_one)).
  discriminate.
Defined.

(** X22: except for approval broadcasts, the colour of a notification
    and its priority badge go together: red exactly with the "High"
    badge, yellow exactly with the "Medium" badge; a priority other than
    high, medium and low has no badge. *)
Theorem priority_colour_matches_priority_badge (n : Notification.t) :
  is_approval n = false →
  (getNotificationColorForData n = "text-red-600 bg-red-100"
   ↔ getPriorityBadge (Notification.priority n) = Some (error, "High"))
  ∧ (getNotificationColorForData n = "text-yellow-600 bg-yellow-100"
     ↔ getPriorityBadge (Notification.priority n) = Some (warning, "Medium"))
  ∧ (getPriorityBadge (Notification.priority n) = None
     ↔ Notification.priority n ≠ "high"
       ∧ Notification.priority n ≠ "medium"
       ∧ Notification.priority n ≠ "low").
Proof.
  intros Ha. unfold getNotificationColorForData. rewrite Ha.
  unfold getNotificationColor, getPriorityBadge.
  destruct (String.eqb_spec (Notification.priority n) "high") as [->|Hh];
    [by repeat split; try intros (? & ? & ?)|].
  destruct (String.eqb_spec (Notification.priority n) "medium") as [->|Hm];
    [by repeat split; try intros (? & ? & ?)|].
  destruct (String.eqb_spec (Notification.priority n) "low") as [->|Hl];
    repeat case_match; repeat split; try done; try intros (? & ? & ?);
    done.
Qed.

Lemma priority_colour_matches_priority_badge_witness :
  getNotificationColorForData FeedExample.unread_one
  = "text-yellow-600 bg-yellow-100"
  ↔ getPriorityBadge "medium" = Some (warning, "Medium").
Proof.
  apply (proj1 (proj2 (priority_colour_matches_priority_badge
                         FeedExample.unread_one eq_refl))).
Defined.

(** ** Overlapping reloads and the selected subject *)

(** A call of [loadSubjects] is its start followed by its landing. *)
Lemma loadSubjects_begin_land (user : option string)
    (userAccess : gset string) (userRequests : gmap string string)
    (b : Backend.t) (p : Page.t) :
  is_Some (user_id user) →
  loadSubjects user userAccess userRequests b p
  = loadSubjects_land (InFlight.mk userAccess userRequests) b
      (loadSubjects_begin user p).
Proof.
  intros [uid Hu]. unfold loadSubjects, loadSubjects_begin. by rewrite Hu.
Qed.

(** The calls started after a change of the snapshot hold the snapshot
    of that render. *)
Lemma accessDataChanged_in_flight (user : option string) (p : Page.t) :
  is_Some (user_id user) →
  (accessDataChanged user p).2
  = [InFlight.mk (Page.userAccess p) (Page.userRequests p);
     InFlight.mk (Page.userAccess p) (Page.userRequests p)].
Proof. intros [uid Hu]. unfold accessDataChanged. by rewrite Hu. Qed.

Lemma loadSubjects_land_subjects (c : InFlight.t) (b : Backend.t)
    (p q : Page.t) :
  Page.subjects (loadSubjects_land c b p)
  = Page.subjects (loadSubjects_land c b q).
Proof.
  unfold loadSubjects_land.
  destruct (Backend.subjects b) as [? [?|]|?]; try done.
  destruct (Backend.subject_lessons b) as [? [?|]|?]; try done;
    destruct (Backend.lesson_videos b) as [? [?|]|?]; done.
Qed.

(** X23: reloads of the catalogue overlap and nothing orders them.  The
    catalogue a call writes when it lands (its three queries answered,
    the subject query without error) is the one assembled from the
    snapshot the call closed over: a lesson is unlocked in it exactly
    when its identifier is in that access set, whatever snapshot the
    page holds by then.  Of two calls, the one that lands last decides
    the catalogue, also when it is the older one. *)
Theorem landed_catalogue_is_the_closures
    (c : InFlight.t) (b : Backend.t) (p : Page.t)
    subjectsData lessonsData lessonsError videosData videosError :
  Backend.subjects b = Js.Resolved subjectsData None →
  Backend.subject_lessons b = Js.Resolved lessonsData lessonsError →
  Backend.lesson_videos b = Js.Resolved videosData videosError →
  Page.subjects (loadSubjects_land c b p)
  = organizedSubjects (InFlight.userAccess c) (InFlight.userRequests c)
      subjectsData lessonsData videosData
  ∧ (∀ s l, s ∈ Page.subjects (loadSubjects_land c b p) →
            l ∈ Subject.lessons s →
            (Lesson.hasAccess l = true ↔ Lesson.id l ∈ InFlight.userAccess c)
            ∧ Lesson.requestStatus l
              = Js.or_string (InFlight.userRequests c !! Lesson.id l) "none")
  ∧ (∀ c' b',
       Page.subjects (loadSubjects_land c b (loadSubjects_land c' b' p))
       = Page.subjects (loadSubjects_land c b p)).
Proof.
  intros Hs Hl Hv.
  assert (Page.subjects (loadSubjects_land c b p)
          = organizedSubjects (InFlight.userAccess c)
              (InFlight.userRequests c) subjectsData lessonsData videosData)
    as Heq by (unfold loadSubjects_land; by rewrite Hs, Hl, Hv).
  split; [done|]. split.
  - rewrite Heq. intros s l Hin Hlesson.
    destruct (assembled_lesson_inv _ _ _ _ _ _ _ Hin Hlesson)
      as (sid & row & _ & ->).
    simpl. split; [|done]. apply bool_decide_eq_true.
  - intros c' b'. apply loadSubjects_land_subjects.
Qed.

(** The page holds the grant of "l1"; a call that closed over the empty
    snapshot lands and the catalogue shows "l1" locked. *)
Lemma landed_catalogue_is_the_closures_witness :
  Page.subjects
    (loadSubjects_land (InFlight.mk ∅ ∅) Scenario.healthy Scenario.loaded)
  = Example.catalogue ∅ ∅.
Proof.
  apply (landed_catalogue_is_the_closures (InFlight.mk ∅ ∅) Scenario.healthy
           Scenario.loaded (Some [Example.subject]) (Some [Example.lesson])
           None (Some Example.videos) None eq_refl eq_refl eq_refl).
Defined.

Lemma loadSubjects_land_navigation (c : InFlight.t) (b : Backend.t)
    (p : Page.t) :
  Page.selectedSubject (loadSubjects_land c b p) = Page.selectedSubject p
  ∧ Page.currentView (loadSubjects_land c b p) = Page.currentView p
  ∧ Page.loading (loadSubjects_land c b p) = false.
Proof.
  unfold loadSubjects_land.
  destruct (Backend.subjects b) as [? [?|]|?]; try done.
  destruct (Backend.subject_lessons b) as [? [?|]|?]; try done;
    destruct (Backend.lesson_videos b) as [? [?|]|?]; done.
Qed.

Lemma loadSubjects_navigation user userAccess userRequests b (p : Page.t) :
  Page.selectedSubject (loadSubjects user userAccess userRequests b p)
  = Page.selectedSubject p
  ∧ Page.currentView (loadSubjects user userAccess userRequests b p)
    = Page.currentView p.
Proof.
  unfold loadSubjects. destruct (user_id user); [|done].
  destruct (Backend.subjects b) as [? [?|]|?]; try done.
  destruct (Backend.subject_lessons b) as [? [?|]|?]; try done;
    destruct (Backend.lesson_videos b) as [? [?|]|?]; done.
Qed.

Lemma refreshAccessData_navigation user b (p : Page.t) :
  Page.selectedSubject (refreshAccessData user b p) = Page.selectedSubject p
  ∧ Page.currentView (refreshAccessData user b p) = Page.currentView p.
Proof.
  unfold refreshAccessData, loadUserRequests, loadUserAccess.
  destruct (user_id user) as [uid|]; [|done].
  destruct (Backend.user_lesson_access b uid) as [? [?|]|?];
    destruct (Backend.lesson_requests b uid) as [? [?|]|?]; done.
Qed.

(** X24: the lesson cards are drawn from the subject as it was copied at
    the click on its card, and only the two navigation handlers write
    that copy.  A refresh of the snapshot, a landing reload of the
    catalogue and a submission of a request leave it as it is, so once a
    reload has landed the cards drawn are still the lessons of the
    subject as clicked, with the access and request status they had
    then. *)
Theorem lesson_cards_are_those_of_the_click
    (subject : Subject.t) (user : option string) (message : string)
    (c : InFlight.t) (b : Backend.t) (p : Page.t) :
  displayed_lessons (loadSubjects_land c b (handleSubjectClick subject p))
  = Some (Subject.lessons subject)
  ∧ Page.selectedSubject (handleSubjectClick subject p) = Some subject
  ∧ Page.selectedSubject (refreshAccessData user b p) = Page.selectedSubject p
  ∧ Page.selectedSubject (loadSubjects_land c b p) = Page.selectedSubject p
  ∧ Page.selectedSubject (submitLessonRequest user message b p)
    = Page.selectedSubject p
  ∧ Page.selectedSubject (modal_handleSubmit user message b p)
    = Page.selectedSubject p.
Proof.
  split; [|split; [done|split; [|split; [|split]]]].
  - unfold displayed_lessons.
    destruct (loadSubjects_land_navigation c b
                (handleSubjectClick subject p)) as (-> & -> & ->).
    done.
  - apply refreshAccessData_navigation.
  - apply loadSubjects_land_navigation.
  - unfold submitLessonRequest.
    destruct (user_id user); [|done].
    destruct (Page.requestingLesson p); [|done].
    destruct (Backend.insert_lesson_requests b _) as [? [?|]|?]; try done.
    by rewrite (proj1 (loadSubjects_navigation _ _ _ _ _)).
  - unfold modal_handleSubmit, submitLessonRequest. simpl.
    destruct (user_id user); [|done].
    destruct (Page.requestingLesson p); [|done].
    destruct (Backend.insert_lesson_requests b _) as [? [?|]|?]; try done.
    by rewrite (proj1 (loadSubjects_navigation _ _ _ _ _)).
Qed.
